(** * anchor: the schema facade and the Validator of [index.js]

    A shallow embedding of [index.js] (the [Anchor] facade with its check
    operation [to] and the registry extension [define], and the [Validator]
    with [initialize] and [validate]), followed by the properties that the
    specification states about them.

    JavaScript values are modelled as finite trees.  An object is the list of
    its own enumerable properties in the order in which [for ... in] and
    [Object.keys] enumerate them; for the identifier-like names that rule sets
    and attribute maps use, this is the order of declaration.  Objects are
    object literals: reading a property that an object does not own finds
    what [Object.prototype] gives.  Numbers are the integers that JavaScript
    holds exactly.  Functions are opaque: what a call of a function value
    does is a parameter wherever the source makes such a call.  Exceptions
    are explicit: a computation that can throw returns a [result].

    [lib/match.js] and [lib/rules] are not part of [index.js].  The facade
    and the Validator take the two functions of [Anchor.match] as
    parameters; the module [Matcher] models them from the specification. *)

From Stdlib Require Import String List ZArith Bool Lia Ascii DecimalString Arith.
Import ListNotations.
Open Scope string_scope.

Set Warnings "-register-all".

(* ================================================================== *)
(** ** JavaScript values *)

Module Js.

Inductive value : Type :=
| VUndefined
| VNull
| VBool (b : bool)
| VNum (z : Z)
| VStr (s : string)
| VFun (id : nat)
| VArr (items : list value)
| VObj (props : list (string * value)).

(** The own enumerable properties of an object, in enumeration order. *)
Definition obj : Type := list (string * value).

(** Thrown values: [new Error(msg)], and the engine's [TypeError] (its
    message is engine specific; [about] names the expression that failed). *)
Inductive exn : Type :=
| Error (message : string)
| TypeError (about : string).

Inductive result (A : Type) : Type :=
| Ok (a : A)
| Throw (e : exn).
Arguments Ok {A} a.
Arguments Throw {A} e.

Definition bind {A B} (m : result A) (k : A -> result B) : result B :=
  match m with
  | Ok a => k a
  | Throw e => Throw e
  end.

Definition returns {A} (m : result A) : bool :=
  match m with Ok _ => true | Throw _ => false end.

(** *** Property tables *)

Section Table.
Context {A : Type}.

Fixpoint lookup (o : list (string * A)) (k : string) : option A :=
  match o with
  | [] => None
  | (k', v) :: rest => if k' =? k then Some v else lookup rest k
  end.

(** [o[k] = v]: an existing property keeps its place, a new one is
    enumerated last. *)
Fixpoint set (o : list (string * A)) (k : string) (v : A) : list (string * A) :=
  match o with
  | [] => [(k, v)]
  | (k', v') :: rest =>
      if k' =? k then (k', v) :: rest else (k', v') :: set rest k v
  end.

Definition keys (o : list (string * A)) : list string := map fst o.
End Table.

Definition mem (k : string) (l : list string) : bool := existsb (String.eqb k) l.

(** What [Object.prototype] gives under the name [k]: its methods, which
    are functions, and under [__proto__] itself, an object without
    enumerable properties. *)
Definition inherited (k : string) : option value :=
  if mem k ["constructor"; "hasOwnProperty"; "isPrototypeOf";
            "propertyIsEnumerable"; "toLocaleString"; "toString"; "valueOf";
            "__defineGetter__"; "__defineSetter__";
            "__lookupGetter__"; "__lookupSetter__"]
  then Some (VFun 0)
  else if k =? "__proto__" then Some (VObj [])
  else None.

(** [o[k]] on an object literal: the own property, else the inherited one,
    else [undefined]. *)
Definition obj_get (o : obj) (k : string) : value :=
  match lookup o k with
  | Some v => v
  | None =>
      match inherited k with
      | Some v => v
      | None => VUndefined
      end
  end.

(** The own property [k] of an object, [undefined] when it has none. *)
Definition own_get (o : obj) (k : string) : value :=
  match lookup o k with
  | Some v => v
  | None => VUndefined
  end.

(** *** Operators *)

Definition truthy (v : value) : bool :=
  match v with
  | VUndefined | VNull => false
  | VBool b => b
  | VNum z => negb (z =? 0)%Z
  | VStr s => negb (s =? EmptyString)
  | VFun _ | VArr _ | VObj _ => true
  end.

(** [typeof v === 'function'], which is also [util.isFunction]. *)
Definition isFunction (v : value) : bool :=
  match v with VFun _ => true | _ => false end.

(** [util.isObject]: objects, arrays and functions. *)
Definition isObject (v : value) : bool :=
  match v with VFun _ | VArr _ | VObj _ => true | _ => false end.

Definition isString (v : value) : bool :=
  match v with VStr _ => true | _ => false end.

Definition is_undefined (v : value) : bool :=
  match v with VUndefined => true | _ => false end.

(** [a === b] with a primitive on one side, as the source uses it. Two
    objects are never identified: the model has no object identity. *)
Definition strict_eq (a b : value) : bool :=
  match a, b with
  | VUndefined, VUndefined => true
  | VNull, VNull => true
  | VBool x, VBool y => Bool.eqb x y
  | VNum x, VNum y => (x =? y)%Z
  | VStr x, VStr y => x =? y
  | _, _ => false
  end.

Definition string_of_Z (z : Z) : string := NilZero.string_of_int (Z.to_int z).
Definition string_of_nat (n : nat) : string := NilZero.string_of_uint (Nat.to_uint n).

Definition dquote : string := String (ascii_of_nat 34) EmptyString.

(** The text of a value whose conversion to a string runs no code of the
    caller (see [plain]).  A number is an integer that JavaScript holds
    exactly (of magnitude at most 2^53 - 1), which it prints in full; an array
    joins its elements with a comma, [null] and [undefined] elements giving
    the empty string; an object without a [toString] of its own prints as
    [[object Object]]. *)
Fixpoint ToString (v : value) : string :=
  match v with
  | VUndefined => "undefined"
  | VNull => "null"
  | VBool true => "true"
  | VBool false => "false"
  | VNum z => string_of_Z z
  | VStr s => s
  | VFun id => "function f" ++ string_of_nat id ++ "() { }"
  | VArr items =>
      String.concat ","
        (map (fun x => match x with
                       | VUndefined | VNull => EmptyString
                       | _ => ToString x
                       end) items)
  | VObj _ => "[object Object]"
  end.

(** The values whose [toString] is built in all the way down: primitives,
    objects without a [toString] property of their own, and arrays of such
    values.  The text of a function is its source, or what its own
    [toString] gives: it is not built in. *)
Fixpoint plain (v : value) : bool :=
  match v with
  | VUndefined | VNull | VBool _ | VNum _ | VStr _ => true
  | VFun _ => false
  | VArr items => forallb plain items
  | VObj props =>
      match lookup props "toString" with
      | None => true
      | Some _ => false
      end
  end.

(** [v.toString() == s] for a string [s] that is no numeric literal.  There
    is no such method on [null] and [undefined]; an own property [toString]
    that is not a function cannot be called; where the method is code of the
    caller (an own [toString] that is a function, a function value, an array
    that holds such values), the outcome is [foreign v s]. *)
Definition toString_equals (foreign : value -> string -> result bool)
    (v : value) (s : string) : result bool :=
  match v with
  | VUndefined | VNull => Throw (TypeError "value.toString")
  | VObj props =>
      match lookup props "toString" with
      | None => Ok ("[object Object]" =? s)
      | Some f =>
          if isFunction f then foreign v s
          else Throw (TypeError "value.toString")
      end
  | _ => if plain v then Ok (ToString v =? s) else foreign v s
  end.

(** What [for (k in v)] enumerates, with the values [v[k]]. *)
Definition indexed (items : list value) : obj :=
  combine (map string_of_nat (seq 0 (length items))) items.

Definition props_of (v : value) : obj :=
  match v with
  | VObj props => props
  | VArr items => indexed items
  | _ => []
  end.

End Js.

Export Js.

Declare Scope js_scope.
Notation "x <- m ;; k" := (bind m (fun x => k))
  (at level 61, m at next level, right associativity) : js_scope.
Open Scope js_scope.

(* ================================================================== *)
(** ** Violations *)

(** One path segment: an attribute name or an element index. *)
Inductive segment : Type :=
| Attr (name : string)
| Index (i : nat).

(** [{ rule, value, path }] *)
Record ValidationError : Type := mkError {
  rule : string;
  value_at : value;
  path : list segment
}.

Definition errors_map : Type := list (string * list ValidationError).

(* ================================================================== *)
(** ** The Matcher *)

Module Matcher.

(** Modelled from the spec: the type descriptors and rule sets that
    [lib/match.js] (absent from the sources) matches against.  A descriptor is
    a JavaScript object, so a schema can contain itself; the model writes that
    edge of the object graph as [Self up], which stands for the composite
    descriptor [up] levels above the place where it occurs. *)
Inductive descriptor : Type :=
| Primitive (name : string)
| ArrayOf (inner : descriptor)
| ObjectSchema (attrs : list (string * ruleset))
| Any
| Self (up : nat)
with ruleset : Type :=
| RuleSet (type : option descriptor) (rules : list (string * value)).

Definition rs_type (rs : ruleset) : option descriptor :=
  match rs with RuleSet t _ => t end.

Definition rs_rules (rs : ruleset) : list (string * value) :=
  match rs with RuleSet _ r => r end.

(** Modelled from the spec: following a [Self] edge gives the enclosing
    composite descriptor together with the descriptors that enclose it; an
    edge that leads to no composite descriptor is read as [Any]. *)
Definition resolve (env : list descriptor) (d : descriptor)
    : list descriptor * descriptor :=
  match d with
  | Self up =>
      match nth_error env up with
      | Some (ArrayOf inner) => (skipn (S up) env, ArrayOf inner)
      | Some (ObjectSchema attrs) => (skipn (S up) env, ObjectSchema attrs)
      | _ => (env, Any)
      end
  | _ => (env, d)
  end.

Definition is_self (d : descriptor) : bool :=
  match d with Self _ => true | _ => false end.

Definition option_list {A} (o : option A) : list A :=
  match o with Some a => [a] | None => [] end.

(** Modelled from the spec: a violation [{ rule, value, path }] over the
    values that are matched. *)
Record Violation (V : Type) : Type := mkViolation {
  v_rule : string;
  v_value : V;
  v_path : list segment
}.
Arguments mkViolation {V} v_rule v_value v_path.
Arguments v_rule {V} v.
Arguments v_value {V} v.
Arguments v_path {V} v.

Section Match.
(** Modelled from the spec: the Matcher sees a value through what it can ask
    of it.  [as_array v] is the sequence of the elements of [v] when [v] is a
    sequence; [as_record v] reads the attributes of [v] when [v] is a
    non-null structured record, an absent attribute reading as the missing
    value.  Nothing makes the values finite: an element or an attribute of a
    value may be the value itself.  [leaf] is the TypeRegistry snapshot, as
    the predicate that each type name resolves to; [satisfied] is the
    RuleEvaluator on [(ruleName, value, ruleArg)]. *)
Context {V : Type}.
Variable as_array : V -> option (list V).
Variable as_record : V -> option (string -> V).
Variable leaf : string -> V -> bool.
Variable satisfied : string -> V -> value -> bool.
Variable maxDepth : nat.

(** [{ rule: 'type', value }] *)
Definition type_error (v : V) : Violation V := mkViolation "type" v [].

(** Tagging a violation with one more path segment, outermost first. *)
Definition tag (seg : segment) (e : Violation V) : Violation V :=
  mkViolation (v_rule e) (v_value e) (seg :: v_path e).

(** The violations of the rules of a rule set other than [type], in
    declaration order. *)
Definition rule_errors (v : V) (rules : list (string * value))
    : list (Violation V) :=
  flat_map (fun r => if satisfied (fst r) v (snd r) then []
                     else [mkViolation (fst r) v []]) rules.

(** *** The algorithm as a relation

    Modelled from the spec: the five steps of the Matcher, one rule per
    case; [matches env v d depth errs] reads: matching [v] against [d],
    found below the descriptors [env], at depth [depth] ends with the
    violations [errs].  The depth grows by one at each descent into an
    array-of or an object schema, and beyond [maxDepth] whatever is nested
    counts as satisfied. *)
Inductive matches : list descriptor -> V -> descriptor -> nat ->
                    list (Violation V) -> Prop :=
| M_beyond env v d depth :
    maxDepth < depth -> matches env v d depth []
| M_primitive env v name depth :
    depth <= maxDepth ->
    matches env v (Primitive name) depth
            (if leaf name v then [] else [type_error v])
| M_any env v depth :
    depth <= maxDepth -> matches env v Any depth []
| M_no_array env v inner depth :
    depth <= maxDepth -> as_array v = None ->
    matches env v (ArrayOf inner) depth [type_error v]
| M_array env v items inner depth errs :
    depth <= maxDepth -> as_array v = Some items ->
    matches_items (ArrayOf inner :: env) items inner (S depth) 0 errs ->
    matches env v (ArrayOf inner) depth errs
| M_no_record env v attrs depth :
    depth <= maxDepth -> as_record v = None ->
    matches env v (ObjectSchema attrs) depth [type_error v]
| M_record env v read attrs depth errs :
    depth <= maxDepth -> as_record v = Some read ->
    matches_attrs (ObjectSchema attrs :: env) read attrs (S depth) errs ->
    matches env v (ObjectSchema attrs) depth errs
| M_self env v up depth errs :
    depth <= maxDepth ->
    matches (fst (resolve env (Self up))) v (snd (resolve env (Self up)))
            depth errs ->
    matches env v (Self up) depth errs
with matches_items : list descriptor -> list V -> descriptor -> nat ->
                     nat -> list (Violation V) -> Prop :=
| MI_nil env inner depth i :
    matches_items env [] inner depth i []
| MI_cons env x xs inner depth i ex exs :
    matches env x inner depth ex ->
    matches_items env xs inner depth (S i) exs ->
    matches_items env (x :: xs) inner depth i
                  (map (tag (Index i)) ex ++ exs)%list
with matches_attrs : list descriptor -> (string -> V) ->
                     list (string * ruleset) -> nat ->
                     list (Violation V) -> Prop :=
| MA_nil env read depth :
    matches_attrs env read [] depth []
| MA_cons env read attr rs rest depth ea erest :
    matches_ruleset env (read attr) rs depth ea ->
    matches_attrs env read rest depth erest ->
    matches_attrs env read ((attr, rs) :: rest) depth
                  (map (tag (Attr attr)) ea ++ erest)%list
with matches_ruleset : list descriptor -> V -> ruleset -> nat ->
                       list (Violation V) -> Prop :=
| MR_beyond env v rs depth :
    maxDepth < depth -> matches_ruleset env v rs depth []
| MR_typed env v d rules depth et :
    depth <= maxDepth ->
    matches env v d depth et ->
    matches_ruleset env v (RuleSet (Some d) rules) depth
                    (et ++ rule_errors v rules)%list
| MR_untyped env v rules depth :
    depth <= maxDepth ->
    matches_ruleset env v (RuleSet None rules) depth (rule_errors v rules).

Scheme matches_mut := Minimality for matches Sort Prop
  with matches_items_mut := Minimality for matches_items Sort Prop
  with matches_attrs_mut := Minimality for matches_attrs Sort Prop
  with matches_ruleset_mut := Minimality for matches_ruleset Sort Prop.

(** *** The algorithm as a function

    The recursion is on the number of levels that are left before the
    depth passes [maxDepth]: [levels] is [maxDepth + 1 - depth]. *)
Definition ruleset_by (levels : nat)
    (rec : V -> descriptor -> list (Violation V))
    (v : V) (rs : ruleset) : list (Violation V) :=
  match levels with
  | 0 => []
  | S _ =>
      (match rs_type rs with
       | Some d => rec v d
       | None => []
       end ++ rule_errors v (rs_rules rs))%list
  end.

Fixpoint items_by (rec : V -> descriptor -> list (Violation V))
    (items : list V) (inner : descriptor) (i : nat) : list (Violation V) :=
  match items with
  | [] => []
  | x :: xs =>
      (map (tag (Index i)) (rec x inner) ++ items_by rec xs inner (S i))%list
  end.

Fixpoint attrs_by (rec : V -> ruleset -> list (Violation V))
    (read : string -> V) (attrs : list (string * ruleset))
    : list (Violation V) :=
  match attrs with
  | [] => []
  | (attr, rs) :: rest =>
      (map (tag (Attr attr)) (rec (read attr) rs)
       ++ attrs_by rec read rest)%list
  end.

Fixpoint deep (levels : nat) (env : list descriptor) (v : V)
    (d : descriptor) : list (Violation V) :=
  match levels with
  | 0 => []
  | S levels' =>
      match resolve env d with
      | (_, Primitive name) => if leaf name v then [] else [type_error v]
      | (env', ArrayOf inner) =>
          match as_array v with
          | Some items =>
              items_by (deep levels' (ArrayOf inner :: env')) items inner 0
          | None => [type_error v]
          end
      | (env', ObjectSchema attrs) =>
          match as_record v with
          | Some read =>
              attrs_by
                (ruleset_by levels' (deep levels' (ObjectSchema attrs :: env')))
                read attrs
          | None => [type_error v]
          end
      | (_, Any) => []
      | (_, Self _) => []
      end
  end.

(** [match(value, descriptor, depth)] below the descriptors [env]. *)
Definition match_in (env : list descriptor) (v : V) (d : descriptor)
    (depth : nat) : list (Violation V) :=
  deep (S maxDepth - depth) env v d.

(** The entry point on a full rule set. *)
Definition match_ruleset (env : list descriptor) (v : V) (rs : ruleset)
    (depth : nat) : list (Violation V) :=
  ruleset_by (S maxDepth - depth) (deep (S maxDepth - depth) env) v rs.
End Match.

(** Modelled from the spec: the contract
    [match(value, descriptor, depth = 0, maxDepth = 50)]. *)
Definition default_maxDepth : nat := 50.

(** *** The values of the facade

    The values that the facade anchors are trees: a sequence is an array, a
    structured record is an object, and an attribute that the object has not
    reads as [undefined]. *)
Definition tree_array (v : value) : option (list value) :=
  match v with VArr items => Some items | _ => None end.

Definition tree_record (v : value) : option (string -> value) :=
  match v with VObj props => Some (own_get props) | _ => None end.

Definition to_error (e : Violation value) : ValidationError :=
  mkError (v_rule e) (v_value e) (v_path e).

(** *** Values that are graphs

    A store of cells, a value being the address of a cell: an array or an
    object can then hold itself.  An address outside the store is the missing
    value. *)
Inductive cell : Type :=
| Leaf (v : value)
| Items (elements : list nat)
| Props (attributes : list (string * nat)).

Definition graph_array (store : list cell) (a : nat) : option (list nat) :=
  match nth_error store a with
  | Some (Items elements) => Some elements
  | _ => None
  end.

Definition graph_record (store : list cell) (a : nat) : option (string -> nat) :=
  match nth_error store a with
  | Some (Props attributes) =>
      Some (fun k => match lookup attributes k with
                     | Some b => b
                     | None => length store
                     end)
  | _ => None
  end.

(** *** Rule-set literals

    Modelled from the spec: a descriptor is written as a type name string, a
    single-element sequence for array-of, or a nested mapping from attribute
    names to rule sets; the reserved key [type] of a rule set holds a
    descriptor.  Any other literal is read as [Any]. *)
Fixpoint descriptor_of (v : value) : descriptor :=
  match v with
  | VStr name => Primitive name
  | VArr [inner] => ArrayOf (descriptor_of inner)
  | VObj attrs =>
      ObjectSchema
        ((fix each_attr (l : list (string * value)) : list (string * ruleset) :=
            match l with
            | [] => []
            | (attr, VObj entries) :: rest =>
                (attr,
                 RuleSet
                   ((fix type_of (es : list (string * value)) : option descriptor :=
                       match es with
                       | [] => None
                       | (k, d) :: es' =>
                           if k =? "type" then Some (descriptor_of d)
                           else type_of es'
                       end) entries)
                   (filter (fun e => negb (fst e =? "type")) entries))
                :: each_attr rest
            | (attr, _) :: rest => (attr, RuleSet None []) :: each_attr rest
            end) attrs)
  | _ => Any
  end.

(** Modelled from the spec: some of the built-in leaf predicates of
    [lib/rules] (absent from the sources); numbers are the integers.  A name
    that the table does not bind passes no value. *)
Definition builtin_leaf (name : string) (v : value) : bool :=
  if name =? "string" then isString v
  else if (name =? "number") || (name =? "integer")
  then match v with VNum _ => true | _ => false end
  else if name =? "boolean"
  then match v with VBool _ => true | _ => false end
  else if name =? "array"
  then match v with VArr _ => true | _ => false end
  else false.

(** Modelled from the spec: the rules [required], [in], [min] and [max] of
    the RuleEvaluator; a violation carries the name of the rule and the
    value.  An unknown rule name is reported as a violation. *)
Definition holds (ruleName : string) (v arg : value) : bool :=
  if ruleName =? "required"
  then negb (truthy arg)
       || negb (strict_eq v VNull || strict_eq v VUndefined
                || strict_eq v (VStr EmptyString))
  else if ruleName =? "in"
  then existsb (strict_eq v) (match arg with VArr l => l | _ => [] end)
  else if ruleName =? "min"
  then match v, arg with VNum x, VNum m => (m <=? x)%Z | _, _ => false end
  else if ruleName =? "max"
  then match v, arg with VNum x, VNum m => (x <=? m)%Z | _, _ => false end
  else false.

Definition builtin_evaluate (v : value) (ruleName : string) (arg : value)
    : option ValidationError :=
  if holds ruleName v arg then None else Some (mkError ruleName v []).

(** [Anchor.match.type] and [Anchor.match.rule] over the built-in tables. *)
Definition builtin_match_type (v type : value) : list ValidationError :=
  map to_error
      (match_in tree_array tree_record builtin_leaf holds default_maxDepth
                [] v (descriptor_of type) 0).

Definition builtin_match_rule (v : value) (ruleName : string) (arg : value)
    : list ValidationError :=
  option_list (builtin_evaluate v ruleName arg).

(** The leaf predicates and rules over a store: a leaf cell is judged by its
    value, any other address passes no leaf predicate and, as the missing
    value, is judged as [undefined] by the rules. *)
Definition graph_leaf (store : list cell) (name : string) (a : nat) : bool :=
  match nth_error store a with
  | Some (Leaf v) => builtin_leaf name v
  | _ => false
  end.

Definition graph_satisfied (store : list cell) (ruleName : string) (a : nat)
    (arg : value) : bool :=
  match nth_error store a with
  | Some (Leaf v) => holds ruleName v arg
  | Some _ => holds ruleName (VObj []) arg
  | None => holds ruleName VUndefined arg
  end.

End Matcher.

Export Matcher.

(* ================================================================== *)
(** ** The schema facade *)

Module Facade.

(** An instance of [Anchor]: it holds the anchored value. *)
Record Anchor_instance : Type := mkAnchor { data : value }.

(** [function Anchor (entity)], called through [new]. *)
Definition Anchor (entity : value) : result Anchor_instance :=
  if isFunction entity
  then Throw (Error "Anchor does not support functions yet!")
  else Ok (mkAnchor entity).

(** [module.exports = function (entity) { return new Anchor(entity); }];
    the Validator reaches it under the name [anchor]. *)
Definition anchor (entity : value) : result Anchor_instance := Anchor entity.

(** What [to] returns: [false], or the non-empty list of errors. *)
Inductive to_result : Type :=
| ReturnsFalse
| ReturnsErrors (errors : list ValidationError).

Section Check.
(** [Anchor.match] is [lib/match.js], which is not part of [index.js]:
    [match_type] is [Anchor.match.type] and [match_rule] is
    [Anchor.match.rule].  Each returns the ordered sequence of violations
    of one rule-set key and, as the specification has it, never throws for
    a failure of the value. *)
Variable match_type : value -> value -> list ValidationError.
Variable match_rule : value -> string -> value -> list ValidationError.

(** The body of the loop of [to] for the key [rule]. *)
Definition to_step (self : Anchor_instance) (ruleset : obj)
    (errors : list ValidationError) (rule : string) : list ValidationError :=
  if rule =? "type"
  then (errors ++ match_type (data self) (obj_get ruleset "type"))%list
  else (errors ++ match_rule (data self) rule (obj_get ruleset rule))%list.

(** What the loop of [to] appends for the key [rule]. *)
Definition key_errors (self : Anchor_instance) (ruleset : obj) (rule : string)
    : list ValidationError :=
  to_step self ruleset [] rule.

(** The value of [errors] when the loop of [to] ends. *)
Definition to_errors (self : Anchor_instance) (ruleset : obj)
    : list ValidationError :=
  fold_left (to_step self ruleset) (keys ruleset) [].

(** [Anchor.prototype.to] *)
Definition to (self : Anchor_instance) (ruleset : obj) : to_result :=
  let errors := to_errors self ruleset in
  match errors with
  | [] => ReturnsFalse
  | _ :: _ => ReturnsErrors errors
  end.
End Check.

(** *** [Anchor.prototype.define]

    [rules] is the registry [Anchor.prototype.rules], which [define]
    mutates; [this] is the receiver, which [define] returns. *)

Definition no_definition (attr : string) : exn :=
  Error ("Definition error: " ++ dquote ++ attr ++ dquote
         ++ " does not have a definition").

Definition not_valid_definition (name : value) : exn :=
  Error ("Definition error: " ++ dquote ++ ToString name ++ dquote
         ++ " is not a valid definition.").

(** The loop over the dictionary: it throws at the first attribute that is
    no function. *)
Fixpoint check_definitions (name : obj) (attrs : list string) : result unit :=
  match attrs with
  | [] => Ok tt
  | attr :: rest =>
      if negb (isFunction (obj_get name attr))
      then Throw (no_definition attr)
      else check_definitions name rest
  end.

(** [util.extend(destination, source)] *)
Definition extend (destination source : obj) : obj :=
  fold_left (fun d k => set d k (obj_get source k)) (keys source) destination.

Definition define {T : Type} (rules : obj) (this : T) (name definition : value)
    : result (obj * T) :=
  if isObject name then
    _ <- check_definitions (props_of name) (keys (props_of name)) ;;
    Ok (extend rules (props_of name), this)
  else if isFunction definition && isString name then
    Ok (set rules (ToString name) definition, this)
  else Throw (not_valid_definition name).

End Facade.

Export Facade.

(* ================================================================== *)
(** ** The Validator *)

Module Validator.

(** [this.validations]: attribute name to rule set. *)
Definition validations_map : Type := list (string * obj).

Definition schema_only (prop : string) : bool :=
  mem prop ["defaultsTo"; "primaryKey"; "autoIncrement"; "unique"; "index";
            "columnName"].

(** The inner loop of [initialize] over the properties of one attribute
    definition. *)
Definition initialize_prop (attrsVal : obj) (validation : obj) (prop : string) : obj :=
  if schema_only prop then validation
  else if prop =? "enum" then set validation "in" (obj_get attrsVal prop)
  else set validation prop (obj_get attrsVal prop).

Definition build_validation (attrsVal : obj) : obj :=
  fold_left (initialize_prop attrsVal) (keys attrsVal) [].

(** The outer loop of [initialize]; [for ... in] over an absent definition
    enumerates nothing. *)
Definition initialize_attr (attrs : list (string * obj))
    (validations : validations_map) (attr : string) : validations_map :=
  let attrsVal := match lookup attrs attr with Some d => d | None => [] end in
  set validations attr (build_validation attrsVal).

(** [Validator.prototype.initialize]: the state is the registry and
    [this.validations]. *)
Definition initialize (rules : obj) (validations : validations_map)
    (attrs : list (string * obj)) (types : value)
    : result (obj * validations_map) :=
  let types := if truthy types then types else VObj [] in
  r <- define rules tt types VUndefined ;;
  Ok (fst r, fold_left (initialize_attr attrs) (keys attrs) validations).

(** The property of an attribute definition that decides the rule [in]:
    the one of [in] and [enum] that is enumerated last. *)
Fixpoint in_writer (props : list string) : option string :=
  match props with
  | [] => None
  | prop :: rest =>
      match in_writer rest with
      | Some w => Some w
      | None => if (prop =? "in") || (prop =? "enum") then Some prop else None
      end
  end.

(** *** [validate] *)

(** What the callback is called with: nothing, or
    [{ ValidationError: errors }]. *)
Inductive cb_arg : Type :=
| NoArgument
| WithValidationError (errors : errors_map).

(** One call of a function value. *)
Record call : Type := mkCall { callee : value; argument : cb_arg }.

(** Calling [f(arg)]: calling what is no function is a [TypeError]. The
    callback itself is outside the program; its call is recorded. *)
Definition invoke (f : value) (arg : cb_arg) : result (list call) :=
  if isFunction f then Ok [mkCall f arg] else Throw (TypeError "cb").

(** [_.uniq] and [_.intersection] of underscore. *)
Definition uniq (l : list string) : list string :=
  fold_left (fun seen x => if mem x seen then seen else (seen ++ [x])%list) l [].

Definition intersection (array other : list string) : list string :=
  filter (fun item => mem item other) (uniq array).

(** [async.each(arr, iterator, callback)] with an iterator that calls back
    at once and without an error: the items are visited in order, and
    [callback] runs after the last one.  An exception of the iterator leaves
    the loop. *)
Fixpoint each {S : Type} (arr : list string) (iterator : string -> S -> result S)
    (s : S) : result S :=
  match arr with
  | [] => Ok s
  | x :: rest => s' <- iterator x s ;; each rest iterator s'
  end.

Section Validate.
Variable match_type : value -> value -> list ValidationError.
Variable match_rule : value -> string -> value -> list ValidationError.
(** [foreign_equals v s] is the outcome of [v.toString() == s] where the
    method [toString] of [v] is code of the caller. *)
Variable foreign_equals : value -> string -> result bool.

(** The attributes that [validate] checks. *)
Definition selected (validations : validations_map) (values : obj)
    (presentOnly : value) : list string :=
  if isFunction presentOnly then keys validations
  else if truthy presentOnly
       then intersection (keys validations) (keys values)
       else keys validations.

(** The manual check of a required boolean. *)
Definition boolean_check (curValidation : obj) (value : value) : result bool :=
  if truthy (obj_get curValidation "required")
     && strict_eq (obj_get curValidation "type") (VStr "boolean")
  then
    is_true <- toString_equals foreign_equals value "true" ;;
    if is_true then Ok true
    else toString_equals foreign_equals value "false"
  else Ok false.

(** The inner function [validate(validation, cb)]: [errors] is the map
    that it shares with its caller; every normal exit is [cb()]. *)
Definition validate_attr (validations : validations_map) (values : obj)
    (validation : string) (errors : errors_map) : result errors_map :=
  match lookup validations validation with
  | None => Throw (TypeError "curValidation.required")
  | Some curValidation =>
      requirements <- anchor (VObj curValidation) ;;
      let value := obj_get values validation in
      let value := if is_undefined value then VNull else value in
      if negb (truthy (obj_get curValidation "required"))
         && (strict_eq value VNull || strict_eq value (VStr EmptyString))
      then Ok errors
      else if strict_eq (obj_get curValidation "type") (VStr "text")
      then Ok errors
      else
        accepted <- boolean_check curValidation value ;;
        if accepted then Ok errors
        else
          subject <- anchor value ;;
          match to match_type match_rule subject (props_of (data requirements)) with
          | ReturnsFalse => Ok errors
          | ReturnsErrors err => Ok (set errors validation err)
          end
  end.

(** The optional second argument: [validate(values, cb)]. *)
Definition callback (presentOnly cb : value) : value :=
  if isFunction presentOnly then presentOnly else cb.

(** The argument of the final call of the callback. *)
Definition outcome (errors : errors_map) : cb_arg :=
  match errors with
  | [] => NoArgument
  | _ :: _ => WithValidationError errors
  end.

(** [Validator.prototype.validate] *)
Definition validate (validations : validations_map) (values : obj)
    (presentOnly : value) (cb : value) : result (list call) :=
  let cb := callback presentOnly cb in
  errors <- each (selected validations values presentOnly)
                 (validate_attr validations values) [] ;;
  match errors with
  | [] => invoke cb NoArgument
  | _ :: _ => invoke cb (WithValidationError errors)
  end.
End Validate.

End Validator.

Export Validator.


(* ================================================================== *)
(** ** Coercion *)

Module Coercion.

(** The names that [for (attr in data)] visits: the properties of a
    record, the indices of an array, the indices of the characters of a
    string (a string is taken as its sequence of code units), and nothing for
    the other primitives. *)
Definition for_in (data : value) : list string :=
  match data with
  | VObj props => keys props
  | VArr items => keys (indexed items)
  | VStr s => map string_of_nat (seq 0 (String.length s))
  | _ => []
  end.

(** [data.hasOwnProperty(attr)] for a name [attr] that [for ... in] has
    visited: the built-in method says yes; a property [hasOwnProperty] of the
    data's own that is not a function cannot be called, and one that is a
    function is code of the caller, with the outcome [foreign_has data attr]. *)
Definition has_own_property (foreign_has : value -> string -> result bool)
    (data : value) (attr : string) : result bool :=
  match data with
  | VObj props =>
      match lookup props "hasOwnProperty" with
      | None => Ok true
      | Some f =>
          if isFunction f then foreign_has data attr
          else Throw (TypeError "data.hasOwnProperty")
      end
  | _ => Ok true
  end.

Definition not_in_ruleset (attr : string) : exn :=
  Error ("Validation error: Attribute " ++ dquote ++ attr ++ dquote
         ++ " is not in the ruleset.").

Section Hurl.
(** [Anchor.match] called as a function, [Anchor.match(data, ruleset, this)],
    is [lib/match.js]; what it returns is dropped, and it may throw. *)
Variable match_all : value -> obj -> Anchor_instance -> result value.
Variable foreign_has : value -> string -> result bool.

(** The loop of [hurl] over the attributes of the data. *)
Fixpoint hurl_check (data : value) (ruleset : obj) (attrs : list string)
    : result unit :=
  match attrs with
  | [] => Ok tt
  | attr :: rest =>
      own <- has_own_property foreign_has data attr ;;
      if own && negb (truthy (obj_get ruleset attr))
      then Throw (not_in_ruleset attr)
      else hurl_check data ruleset rest
  end.

(** [Anchor.prototype.hurl] *)
Definition hurl (self : Anchor_instance) (ruleset : obj) : result unit :=
  _ <- hurl_check (data self) ruleset (for_in (data self)) ;;
  _ <- match_all (data self) ruleset self ;;
  Ok tt.
End Hurl.

(** An attribute definition without its schema-only properties. *)
Definition strip_schema_only (def : obj) : obj :=
  filter (fun p => negb (schema_only (fst p))) def.

Definition strip_attrs (attrs : list (string * obj)) : list (string * obj) :=
  map (fun ad => (fst ad, strip_schema_only (snd ad))) attrs.

End Coercion.

Export Coercion.

(* ================================================================== *)
(** ** Sample data *)

Module Samples.

(** A schema whose attribute [friend] is described by the schema itself. *)
Definition person : descriptor :=
  ObjectSchema [("name", RuleSet (Some (Primitive "string")) []);
                ("friend", RuleSet (Some (Self 0)) [])].

(** The same with a required [name]. *)
Definition person_required : descriptor :=
  ObjectSchema [("name", RuleSet (Some (Primitive "string"))
                                 [("required", VBool true)]);
                ("friend", RuleSet (Some (Self 0)) [])].

(** A person who is their own friend: the cell at address 0 holds itself.
    In [stranger] the name is a number. *)
Definition narcissus : list cell :=
  [Props [("name", 1); ("friend", 0)]; Leaf (VStr "a")].

Definition stranger : list cell :=
  [Props [("name", 1); ("friend", 0)]; Leaf (VNum 1)].

(** A chain of [n] nested persons that ends in [last]. *)
Fixpoint chain (n : nat) (last : value) : value :=
  match n with
  | 0 => last
  | S n' => VObj [("name", VStr "a"); ("friend", chain n' last)]
  end.

(** A rule set that declares [min] before [type]. *)
Definition min_then_type : obj := [("min", VNum 0); ("type", VStr "integer")].

Definition min_then_string : obj := [("min", VNum 0); ("type", VStr "string")].

(** Code of the caller whose text is never the one asked for. *)
Definition never_equal (v : value) (s : string) : result bool := Ok false.

(** An own [hasOwnProperty] that always says yes. *)
Definition always_own (data : value) (attr : string) : result bool := Ok true.

(** A registry in which [email] is bound to a composite descriptor. *)
Definition aliased_rules : obj := [("email", VArr [VStr "string"])].

(** An attribute definition that gives both [in] and [enum]. *)
Definition status_attrs : list (string * obj) :=
  [("status", [("type", VStr "string");
               ("in", VArr [VStr "a"]);
               ("enum", VArr [VStr "b"]);
               ("unique", VBool true)])].

(** The schemas of the examples of the specification. *)
Definition active_schema : validations_map :=
  [("active", [("type", VStr "boolean"); ("required", VBool true)])].

Definition name_email_schema : validations_map :=
  [("name", [("type", VStr "string"); ("required", VBool true)]);
   ("email", [("type", VStr "string"); ("required", VBool true)])].

Definition name_age_schema : validations_map :=
  [("name", [("type", VStr "string"); ("required", VBool true)]);
   ("age", [("type", VStr "integer"); ("min", VNum 0)])].

Definition ann_minus_one : obj := [("name", VStr "Ann"); ("age", VNum (-1))].

End Samples.

Export Samples.

Module MoreSamples.

(** A Matcher that accepts everything. *)
Definition accept_all (data : value) (ruleset : obj) (self : Anchor_instance)
    : result value := Ok VUndefined.

Definition user_data : value := VObj [("name", VStr "Ann"); ("age", VNum 5)].

Definition user_ruleset : obj :=
  [("name", VStr "string"); ("age", VStr "integer")].

(** [name_age_schema] with its attributes declared the other way round. *)
Definition age_name_schema : validations_map :=
  [("age", [("type", VStr "integer"); ("min", VNum 0)]);
   ("name", [("type", VStr "string"); ("required", VBool true)])].

(** An optional attribute with the name of a method of every object. *)
Definition constructor_schema : validations_map :=
  [("constructor", [("type", VStr "string")])].

Definition notes_schema : validations_map :=
  [("notes", [("type", VStr "text"); ("required", VBool true)])].

Definition name_age_attrs : list (string * obj) :=
  [("name", [("type", VStr "string"); ("required", VBool true);
             ("unique", VBool true)]);
   ("age", [("type", VStr "integer"); ("defaultsTo", VNum 1);
            ("min", VNum 0)])].

End MoreSamples.

Export MoreSamples.
(* ================================================================== *)
(** ** Properties of the Matcher *)

Section MatcherFacts.
Context {V : Type}.
Variable as_array : V -> option (list V).
Variable as_record : V -> option (string -> V).
Variable leaf : string -> V -> bool.
Variable satisfied : string -> V -> value -> bool.
Variable maxDepth : nat.

Let matches := matches as_array as_record leaf satisfied maxDepth.
Let matches_items := matches_items as_array as_record leaf satisfied maxDepth.
Let matches_attrs := matches_attrs as_array as_record leaf satisfied maxDepth.
Let matches_ruleset := matches_ruleset as_array as_record leaf satisfied maxDepth.
Let deep := deep as_array as_record leaf satisfied.
Let ruleset_by := ruleset_by (V := V) satisfied.

Lemma resolve_not_self env d : is_self (snd (resolve env d)) = false.
Proof.
  destruct d as [name|inner|attrs| |up]; simpl; try reflexivity.
  destruct (nth_error env up) as [[ | | | | ]|]; reflexivity.
Qed.

Lemma resolve_fixed env d : is_self d = false -> resolve env d = (env, d).
Proof. destruct d; simpl; intros H; congruence. Qed.

Lemma deep_resolve levels env v d :
  deep levels env v d
  = deep levels (fst (resolve env d)) v (snd (resolve env d)).
Proof.
  destruct levels as [|levels]; [reflexivity|].
  unfold deep; simpl.
  rewrite (resolve_fixed (fst (resolve env d)) (snd (resolve env d)))
    by apply resolve_not_self.
  destruct (resolve env d); reflexivity.
Qed.

Lemma items_by_sound env rec depth inner :
  (forall x, matches env x inner depth (rec x inner)) ->
  forall items i,
    matches_items env items inner depth i (items_by rec items inner i).
Proof.
  intros Hrec items.
  induction items as [|x xs IH]; intros i; simpl.
  - apply MI_nil.
  - apply MI_cons; [apply Hrec | apply IH].
Qed.

Lemma ruleset_by_sound env levels rec depth v rs :
  levels = S maxDepth - depth ->
  (forall d, matches env v d depth (rec v d)) ->
  matches_ruleset env v rs depth (ruleset_by levels rec v rs).
Proof.
  intros Hl Hrec. destruct levels as [|levels]; simpl.
  - apply MR_beyond. lia.
  - assert (Hd : depth <= maxDepth) by lia.
    destruct rs as [[d|] rules]; simpl.
    + apply MR_typed; [exact Hd | apply Hrec].
    + apply MR_untyped; exact Hd.
Qed.

Lemma attrs_by_sound env rec depth read :
  (forall x rs, matches_ruleset env x rs depth (rec x rs)) ->
  forall attrs,
    matches_attrs env read attrs depth (attrs_by rec read attrs).
Proof.
  intros Hrec attrs.
  induction attrs as [|[attr rs] rest IH]; simpl.
  - apply MA_nil.
  - apply MA_cons; [apply Hrec | exact IH].
Qed.

(** The function follows the rules of the relation. *)
Lemma deep_sound levels :
  forall env v d depth,
    levels = S maxDepth - depth ->
    matches env v d depth (deep levels env v d).
Proof.
  induction levels as [|levels IH]; intros env v d depth Hl.
  - apply M_beyond. lia.
  - assert (Hd : depth <= maxDepth) by lia.
    assert (Hn : levels = S maxDepth - S depth) by lia.
    assert (Hplain : forall env' d', is_self d' = false ->
              matches env' v d' depth (deep (S levels) env' v d')).
    { intros env' d' Hs.
      destruct d' as [name|inner|attrs| |up]; try discriminate Hs; simpl.
      - apply M_primitive; exact Hd.
      - destruct (as_array v) as [items|] eqn:Ea.
        + eapply M_array; [exact Hd | exact Ea |].
          apply items_by_sound. intros x. apply IH, Hn.
        + apply M_no_array; assumption.
      - destruct (as_record v) as [read|] eqn:Er.
        + eapply M_record; [exact Hd | exact Er |].
          apply attrs_by_sound. intros x rs.
          apply ruleset_by_sound; [exact Hn|].
          intros d0. apply IH, Hn.
        + apply M_no_record; assumption.
      - apply M_any; exact Hd. }
    destruct d as [name|inner|attrs| |up]; try (apply Hplain; reflexivity).
    apply M_self; [exact Hd|].
    rewrite deep_resolve. apply Hplain, resolve_not_self.
Qed.

(** The relation has no other results than the function's. *)
Lemma matches_deep env v d depth errs :
  matches env v d depth errs ->
  errs = deep (S maxDepth - depth) env v d.
Proof.
  revert env v d depth errs.
  apply (matches_mut as_array as_record leaf satisfied maxDepth
           (fun env v d depth errs =>
              errs = deep (S maxDepth - depth) env v d)
           (fun env items inner depth i errs =>
              errs = items_by (deep (S maxDepth - depth) env) items inner i)
           (fun env read attrs depth errs =>
              errs = attrs_by (ruleset_by (S maxDepth - depth)
                                          (deep (S maxDepth - depth) env))
                              read attrs)
           (fun env v rs depth errs =>
              errs = ruleset_by (S maxDepth - depth)
                                (deep (S maxDepth - depth) env) v rs));
    intros;
    try (rewrite deep_resolve; assumption);
    try (replace (S maxDepth - depth) with 0 by lia; reflexivity);
    try (replace (S maxDepth - depth) with (S (maxDepth - depth)) in * by lia);
    simpl in *;
    repeat match goal with
           | H : as_array _ = _ |- _ => rewrite H; clear H
           | H : as_record _ = _ |- _ => rewrite H; clear H
           end;
    subst; reflexivity.
Qed.

Lemma rule_errors_path (v : V) rules (e : Violation V) :
  In e (rule_errors satisfied v rules) -> v_path e = [].
Proof.
  unfold rule_errors. rewrite in_flat_map. intros [r [_ Hr]].
  destruct (satisfied (fst r) v (snd r)); [destruct Hr|].
  destruct Hr as [<-|[]]. reflexivity.
Qed.

Lemma items_by_path rec (items : list V) inner i n (e : Violation V) :
  (forall x e', In e' (rec x inner) -> length (v_path e') < n) ->
  In e (items_by rec items inner i) -> length (v_path e) < S n.
Proof.
  intros Hrec. revert i. induction items as [|x xs IH]; intros i; simpl.
  - intros [].
  - rewrite in_app_iff, in_map_iff. intros [[e' [<- He']]|Hin].
    + simpl. apply Hrec in He'. lia.
    + eapply IH, Hin.
Qed.

Lemma attrs_by_path rec (read : string -> V) attrs n (e : Violation V) :
  (forall x rs e', In e' (rec x rs) -> length (v_path e') < n) ->
  In e (attrs_by rec read attrs) -> length (v_path e) < S n.
Proof.
  intros Hrec. induction attrs as [|[attr rs] rest IH]; simpl.
  - intros [].
  - rewrite in_app_iff, in_map_iff. intros [[e' [<- He']]|Hin].
    + simpl. apply Hrec in He'. lia.
    + apply IH, Hin.
Qed.

(** A violation lies within the levels that were left: each segment of its
    path stands for one descent. *)
Lemma deep_path levels :
  forall env v d e,
    In e (deep levels env v d) -> length (v_path e) < levels.
Proof.
  induction levels as [|levels IH]; intros env v d e; [intros []|].
  rewrite deep_resolve.
  assert (Hs := resolve_not_self env d).
  destruct (resolve env d) as [env' d']. simpl in *.
  destruct d' as [name|inner|attrs| |up]; try discriminate Hs; simpl.
  - destruct (leaf name v); [intros [] | intros [<-|[]]; simpl; lia].
  - destruct (as_array v) as [items|].
    + apply items_by_path. intros x e'. apply IH.
    + intros [<-|[]]. simpl. lia.
  - destruct (as_record v) as [read|].
    + apply attrs_by_path. intros x rs e'.
      destruct levels as [|levels']; [intros []|].
      simpl. rewrite in_app_iff. intros [Ht|Hr].
      * destruct (rs_type rs) as [d0|]; [|destruct Ht].
        eapply IH, Ht.
      * apply rule_errors_path in Hr. rewrite Hr. simpl. lia.
    + intros [<-|[]]. simpl. lia.
  - intros [].
Qed.

End MatcherFacts.

(** C3: for every value and every descriptor, self-referential ones
    included, and whether or not the value is finite, the deep match ends
    with exactly one sequence of violations.  No violation comes from beyond
    the cap: the depth of the match plus the length of the path of a
    violation never exceeds [maxDepth], and a match that starts above
    [maxDepth] reports nothing; deeper nesting counts as satisfied and
    nothing is raised. *)
Theorem deep_match_terminates :
  forall (V : Type)
         (as_array : V -> option (list V))
         (as_record : V -> option (string -> V))
         (leaf : string -> V -> bool)
         (satisfied : string -> V -> value -> bool)
         (maxDepth : nat) (env : list descriptor) (v : V)
         (d : descriptor) (depth : nat),
    exists errs,
      matches as_array as_record leaf satisfied maxDepth env v d depth errs
      /\ (forall errs',
             matches as_array as_record leaf satisfied maxDepth env v d depth
                     errs' ->
             errs' = errs)
      /\ errs = match_in as_array as_record leaf satisfied maxDepth env v d depth
      /\ (forall e, In e errs -> depth + length (v_path e) <= maxDepth)
      /\ (maxDepth < depth -> errs = []).
Proof.
  intros V as_array as_record leaf satisfied maxDepth env v d depth.
  exists (match_in as_array as_record leaf satisfied maxDepth env v d depth).
  split; [|split; [|split; [|split]]].
  - apply deep_sound. reflexivity.
  - intros errs' H. apply matches_deep, H.
  - reflexivity.
  - intros e He. apply deep_path in He. lia.
  - intros Hd. unfold match_in.
    replace (S maxDepth - depth) with 0 by lia. reflexivity.
Qed.

(** The same for a full rule set: the violations of the rules of an
    attribute that lies beyond the cap are not reported either. *)
Lemma ruleset_match_within_cap :
  forall (V : Type)
         (as_array : V -> option (list V))
         (as_record : V -> option (string -> V))
         (leaf : string -> V -> bool)
         (satisfied : string -> V -> value -> bool)
         (maxDepth : nat) (env : list descriptor) (v : V)
         (rs : ruleset) (depth : nat),
    matches_ruleset as_array as_record leaf satisfied maxDepth env v rs depth
      (match_ruleset as_array as_record leaf satisfied maxDepth env v rs depth)
    /\ (forall e,
           In e (match_ruleset as_array as_record leaf satisfied maxDepth
                               env v rs depth) ->
           depth + length (v_path e) <= maxDepth)
    /\ (maxDepth < depth ->
        match_ruleset as_array as_record leaf satisfied maxDepth env v rs depth
        = []).
Proof.
  intros V as_array as_record leaf satisfied maxDepth env v rs depth.
  unfold match_ruleset. split; [|split].
  - apply ruleset_by_sound; [reflexivity|].
    intros d. apply deep_sound. reflexivity.
  - intros e. destruct (S maxDepth - depth) as [|levels] eqn:El; [intros []|].
    unfold ruleset_by. rewrite in_app_iff. intros [Ht|Hr].
    + destruct (rs_type rs) as [d|]; [|destruct Ht].
      apply deep_path in Ht. lia.
    + apply rule_errors_path in Hr. rewrite Hr. simpl. lia.
  - intros Hd. replace (S maxDepth - depth) with 0 by lia. reflexivity.
Qed.

(** The self-referential [person] schema at the default depth.  On chains of
    persons, a leaf of the wrong type is reported while it lies within the
    cap and is passed over once it lies deeper, and so is the missing
    required name of the last person.  On a person who is their own friend
    the match ends: with no violation when the name is a string, and with
    one violation for each of the fifty levels below the top when it is
    not. *)
Lemma person_depth_bound :
  map to_error
      (match_in tree_array tree_record builtin_leaf holds default_maxDepth []
                (chain 50 (VNum 1)) person 0)
  = [mkError "type" (VNum 1) (repeat (Attr "friend") 50)]
  /\ match_in tree_array tree_record builtin_leaf holds default_maxDepth []
              (chain 51 (VNum 1)) person 0 = []
  /\ match_in tree_array tree_record builtin_leaf holds default_maxDepth []
              (chain 50 (VObj [])) person_required 0 = []
  /\ length (match_in tree_array tree_record builtin_leaf holds
                      default_maxDepth [] (chain 49 (VObj []))
                      person_required 0) = 3
  /\ match_in (graph_array narcissus) (graph_record narcissus)
              (graph_leaf narcissus) (graph_satisfied narcissus)
              default_maxDepth [] 0 person 0 = []
  /\ length (match_in (graph_array stranger) (graph_record stranger)
                      (graph_leaf stranger) (graph_satisfied stranger)
                      default_maxDepth [] 0 person 0) = 50
  /\ default_maxDepth = 50.
Proof. repeat split; vm_compute; reflexivity. Qed.
Lemma stranger_unfold l env :
  deep (graph_array stranger) (graph_record stranger) (graph_leaf stranger)
       (graph_satisfied stranger) (S (S l)) env 0 person
  = (map (tag (Attr "name")) [type_error 1]
     ++ map (tag (Attr "friend"))
            (deep (graph_array stranger) (graph_record stranger)
                  (graph_leaf stranger) (graph_satisfied stranger)
                  (S l) env 0 person ++ [])
     ++ [])%list.
Proof. reflexivity. Qed.

Lemma stranger_levels l :
  forall env,
    length (deep (graph_array stranger) (graph_record stranger)
                 (graph_leaf stranger) (graph_satisfied stranger)
                 (S l) env 0 person) = l.
Proof.
  induction l as [|l IH]; intros env.
  - reflexivity.
  - rewrite stranger_unfold. rewrite !length_app, !length_map, length_app.
    rewrite IH. simpl. lia.
Qed.

(** On the person who is their own friend and whose name is no string, it
    is the cap alone that ends the match: whatever [maxDepth] is, the match
    reports one violation for each level below the top, and no more. *)
Lemma cyclic_match_one_violation_per_level :
  forall maxDepth : nat,
    length (match_in (graph_array stranger) (graph_record stranger)
                     (graph_leaf stranger) (graph_satisfied stranger)
                     maxDepth [] 0 person 0) = maxDepth.
Proof.
  intros maxDepth. unfold match_in.
  replace (S maxDepth - 0) with (S maxDepth) by lia.
  apply stranger_levels.
Qed.

(* ================================================================== *)
(** ** Properties of property tables *)

Section TableFacts.
Context {A : Type}.
Implicit Types (o : list (string * A)) (k : string) (v : A).

Lemma lookup_set_same o k v : lookup (set o k v) k = Some v.
Proof.
  induction o as [|[k' v'] rest IH]; simpl.
  - rewrite String.eqb_refl. reflexivity.
  - destruct (k' =? k) eqn:E; simpl; rewrite E; [reflexivity | exact IH].
Qed.

Lemma lookup_set_other o k k' v : k <> k' -> lookup (set o k v) k' = lookup o k'.
Proof.
  intros Hne. induction o as [|[k0 v0] rest IH]; simpl.
  - destruct (String.eqb_spec k k'); [contradiction | reflexivity].
  - destruct (String.eqb_spec k0 k) as [->|Hk]; simpl.
    + destruct (String.eqb_spec k k'); [contradiction | reflexivity].
    + destruct (k0 =? k'); [reflexivity | exact IH].
Qed.

Lemma lookup_set o k k' v :
  lookup (set o k v) k' = if k =? k' then Some v else lookup o k'.
Proof.
  destruct (String.eqb_spec k k') as [->|Hne].
  - apply lookup_set_same.
  - apply lookup_set_other, Hne.
Qed.

Lemma lookup_in_keys o k : In k (keys o) -> exists v, lookup o k = Some v.
Proof.
  induction o as [|[k0 v0] rest IH]; simpl; [intros []|].
  intros [->|Hin].
  - rewrite String.eqb_refl. eauto.
  - destruct (k0 =? k); eauto.
Qed.

Lemma lookup_keys o k v : lookup o k = Some v -> In k (keys o).
Proof.
  induction o as [|[k0 v0] rest IH]; simpl; [discriminate|].
  destruct (String.eqb_spec k0 k) as [->|Hne]; [left; reflexivity|].
  intros H. right. apply IH, H.
Qed.

Lemma lookup_none o k : ~ In k (keys o) -> lookup o k = None.
Proof.
  intros Hn. destruct (lookup o k) eqn:E; [|reflexivity].
  exfalso. eapply Hn, lookup_keys, E.
Qed.
End TableFacts.

Lemma mem_In k l : mem k l = true <-> In k l.
Proof.
  unfold mem. rewrite existsb_exists. split.
  - intros [x [Hin Heq]]. apply String.eqb_eq in Heq. subst. exact Hin.
  - intros Hin. exists k. split; [exact Hin | apply String.eqb_refl].
Qed.

Lemma mem_false k l : mem k l = false <-> ~ In k l.
Proof.
  rewrite <- mem_In. destruct (mem k l); split; intros H; congruence.
Qed.

(* ================================================================== *)
(** ** Properties of the facade *)

Section CheckFacts.
Variable match_type : value -> value -> list ValidationError.
Variable match_rule : value -> string -> value -> list ValidationError.

Let to_step := to_step match_type match_rule.
Let key_errors := key_errors match_type match_rule.

Lemma to_step_app self ruleset acc rule :
  to_step self ruleset acc rule = (acc ++ key_errors self ruleset rule)%list.
Proof.
  unfold to_step, key_errors, Facade.key_errors, Facade.to_step.
  destruct (rule =? "type"); reflexivity.
Qed.

Lemma to_step_fold self ruleset rules acc :
  fold_left (to_step self ruleset) rules acc
  = (acc ++ flat_map (key_errors self ruleset) rules)%list.
Proof.
  revert acc. induction rules as [|rule rest IH]; intros acc; simpl.
  - rewrite app_nil_r. reflexivity.
  - rewrite IH, to_step_app, <- app_assoc. reflexivity.
Qed.

Lemma to_errors_flat_map self ruleset :
  to_errors match_type match_rule self ruleset
  = flat_map (key_errors self ruleset) (keys ruleset).
Proof. unfold to_errors. apply to_step_fold. Qed.

Lemma key_errors_not_type self ruleset rules :
  ~ In "type" rules ->
  flat_map (key_errors self ruleset) rules
  = flat_map (fun rule => match_rule (data self) rule (obj_get ruleset rule)) rules.
Proof.
  induction rules as [|rule rest IH]; simpl; [reflexivity|].
  intros Hn. rewrite IH by tauto. f_equal.
  unfold key_errors, Facade.key_errors, Facade.to_step.
  destruct (String.eqb_spec rule "type") as [->|_]; [tauto | reflexivity].
Qed.
End CheckFacts.

(** C2 (as amended): [to] returns the violations of the keys of the rule set
    in declaration order, or [false] when there are none; the violations of
    [type] stand where [type] is declared, after those of the rules declared
    before it and before those of the keys declared after it, and so at the
    front when [type] is declared first. *)
Theorem to_lists_errors_in_declaration_order :
  forall (match_type : value -> value -> list ValidationError)
         (match_rule : value -> string -> value -> list ValidationError)
         (self : Anchor_instance) (ruleset : obj),
    to match_type match_rule self ruleset
    = match flat_map (key_errors match_type match_rule self ruleset) (keys ruleset) with
      | [] => ReturnsFalse
      | e :: es => ReturnsErrors (e :: es)
      end
    /\ (forall before d after,
          ruleset = (before ++ ("type", d) :: after)%list ->
          ~ In "type" (keys before) ->
          flat_map (key_errors match_type match_rule self ruleset) (keys ruleset)
          = (flat_map (fun rule => match_rule (data self) rule (obj_get ruleset rule))
                      (keys before)
             ++ match_type (data self) d
             ++ flat_map (key_errors match_type match_rule self ruleset) (keys after))%list)
    /\ (forall d after,
          ruleset = ("type", d) :: after ->
          flat_map (key_errors match_type match_rule self ruleset) (keys ruleset)
          = (match_type (data self) d
             ++ flat_map (key_errors match_type match_rule self ruleset) (keys after))%list).
Proof.
  intros match_type match_rule self ruleset. split; [|split].
  - unfold to. rewrite to_errors_flat_map.
    destruct (flat_map _ _); reflexivity.
  - intros before d after -> Hn.
    unfold keys. rewrite map_app, flat_map_app. simpl.
    rewrite key_errors_not_type by exact Hn. f_equal. f_equal.
    unfold key_errors, to_step. simpl.
    unfold obj_get. 
    assert (Hl : lookup (before ++ ("type", d) :: after) "type" = Some d).
    { clear - Hn. induction before as [|[k v] rest IH]; simpl.
      - reflexivity.
      - simpl in Hn. destruct (String.eqb_spec k "type") as [->|_]; [tauto|].
        apply IH. tauto. }
    rewrite Hl. reflexivity.
  - intros d after ->. reflexivity.
Qed.

Lemma to_lists_errors_in_declaration_order_witness :
  ~ In "type" (keys [("min", VNum 0)])
  /\ flat_map (key_errors builtin_match_type builtin_match_rule
                          (mkAnchor (VNum (-1))) min_then_string)
              (keys min_then_string)
     = (flat_map (fun rule => builtin_match_rule (VNum (-1)) rule
                                (obj_get min_then_string rule)) ["min"]
        ++ builtin_match_type (VNum (-1)) (VStr "string")
        ++ [])%list.
Proof.
  assert (Hn : ~ In "type" (keys [("min", VNum 0)])).
  { simpl. intros [H|[]]. discriminate H. }
  split; [exact Hn|].
  exact (proj1 (proj2 (to_lists_errors_in_declaration_order
                         builtin_match_type builtin_match_rule
                         (mkAnchor (VNum (-1))) min_then_string))
               [("min", VNum 0)] (VStr "string") [] eq_refl Hn).
Defined.

(** C2 fails as stated: with [min] declared before [type], on a number
    below the minimum that is no string, the violation of [min] comes first
    and the violation of [type] second. *)
Lemma to_type_errors_not_first :
  to builtin_match_type builtin_match_rule (mkAnchor (VNum (-1))) min_then_string
  = ReturnsErrors [mkError "min" (VNum (-1)) []; mkError "type" (VNum (-1)) []]
  /\ builtin_match_rule (VNum (-1)) "min" (VNum 0)
     = [mkError "min" (VNum (-1)) []]
  /\ builtin_match_type (VNum (-1)) (VStr "string")
     = [mkError "type" (VNum (-1)) []]
  /\ to builtin_match_type builtin_match_rule (mkAnchor (VNum (-1))) min_then_string
     <> ReturnsErrors (builtin_match_type (VNum (-1)) (VStr "string")
                       ++ builtin_match_rule (VNum (-1)) "min" (VNum 0))%list.
Proof. repeat split; vm_compute; try reflexivity. discriminate. Qed.

Section DefineFacts.
Context {T : Type}.

Lemma check_definitions_ok (name : obj) attrs :
  (forall k, In k attrs -> isFunction (obj_get name k) = true) ->
  check_definitions name attrs = Ok tt.
Proof.
  induction attrs as [|attr rest IH]; simpl; intros H; [reflexivity|].
  rewrite (H attr) by (left; reflexivity). simpl.
  apply IH. intros k Hk. apply H. right. exact Hk.
Qed.

Lemma check_definitions_bad (name : obj) before bad after :
  (forall k, In k before -> isFunction (obj_get name k) = true) ->
  isFunction (obj_get name bad) = false ->
  check_definitions name (before ++ bad :: after) = Throw (no_definition bad).
Proof.
  intros Hb Hbad. induction before as [|attr rest IH]; simpl.
  - rewrite Hbad. reflexivity.
  - rewrite (Hb attr) by (left; reflexivity). simpl.
    apply IH. intros k Hk. apply Hb. right. exact Hk.
Qed.

Lemma lookup_extend_keys (source : obj) ks (destination : obj) k :
  lookup (fold_left (fun d k' => set d k' (obj_get source k')) ks destination) k
  = if mem k ks then Some (obj_get source k) else lookup destination k.
Proof.
  revert destination. induction ks as [|k0 rest IH]; intros destination; simpl.
  - reflexivity.
  - rewrite IH. destruct (mem k rest) eqn:Em.
    + rewrite orb_true_r. reflexivity.
    + rewrite orb_false_r, lookup_set, String.eqb_sym.
      destruct (String.eqb_spec k k0) as [->|_]; reflexivity.
Qed.

Lemma lookup_extend (destination source : obj) k :
  lookup (extend destination source) k
  = if mem k (keys source) then Some (obj_get source k) else lookup destination k.
Proof. apply lookup_extend_keys. Qed.
End DefineFacts.

(** C9 (as amended): [define(name, predicateFn)] with a string [name] throws a
    definition error when [predicateFn] is not callable, and otherwise binds
    [name] to [predicateFn] whatever [name] was bound to before; the bulk form
    [define(dict)] throws a definition error that names the first key whose
    value is not callable; otherwise the entries are registered and the
    receiver is returned. *)
Theorem define_registers_or_throws :
  forall (T : Type) (rules : obj) (this : T),
    (forall s definition,
        isFunction definition = false ->
        define rules this (VStr s) definition
        = Throw (Error ("Definition error: " ++ dquote ++ s ++ dquote
                        ++ " is not a valid definition.")))
    /\ (forall s definition,
           isFunction definition = true ->
           exists rules',
             define rules this (VStr s) definition = Ok (rules', this)
             /\ lookup rules' s = Some definition
             /\ forall k, k <> s -> lookup rules' k = lookup rules k)
    /\ (forall dict definition before bad after,
           keys dict = (before ++ bad :: after)%list ->
           (forall k, In k before -> isFunction (obj_get dict k) = true) ->
           isFunction (obj_get dict bad) = false ->
           define rules this (VObj dict) definition
           = Throw (Error ("Definition error: " ++ dquote ++ bad ++ dquote
                           ++ " does not have a definition")))
    /\ (forall dict definition,
           (forall k, In k (keys dict) -> isFunction (obj_get dict k) = true) ->
           exists rules',
             define rules this (VObj dict) definition = Ok (rules', this)
             /\ forall k, lookup rules' k
                          = if mem k (keys dict) then Some (obj_get dict k)
                            else lookup rules k).
Proof.
  intros T rules this. repeat split.
  - intros s definition Hf. unfold define. simpl. rewrite Hf. reflexivity.
  - intros s definition Hf. exists (set rules s definition).
    unfold define. simpl. rewrite Hf. simpl. repeat split.
    + apply lookup_set_same.
    + intros k Hk. apply lookup_set_other. congruence.
  - intros dict definition before bad after Hk Hb Hbad.
    unfold define. simpl. rewrite Hk.
    rewrite (check_definitions_bad dict before bad after Hb Hbad). reflexivity.
  - intros dict definition Hall. exists (extend rules dict).
    unfold define. simpl.
    rewrite (check_definitions_ok dict (keys dict) Hall). simpl.
    split; [reflexivity|]. intros k. apply lookup_extend.
Qed.

Lemma define_registers_or_throws_witness :
  exists rules',
    define aliased_rules tt (VStr "email") (VFun 1) = Ok (rules', tt)
    /\ lookup rules' "email" = Some (VFun 1)
    /\ forall k, k <> "email" -> lookup rules' k = lookup aliased_rules k.
Proof.
  exact (proj1 (proj2 (define_registers_or_throws unit aliased_rules tt))
               "email" (VFun 1) eq_refl).
Defined.

(** C9 fails as stated: [email] is bound to an entry that is no predicate,
    and [define] does not throw: it binds [email] anew. *)
Lemma define_rebinds_bound_name :
  lookup aliased_rules "email" = Some (VArr [VStr "string"])
  /\ define aliased_rules tt (VStr "email") (VFun 1)
     = Ok ([("email", VFun 1)], tt).
Proof. split; reflexivity. Qed.

(** C10: the exported constructor throws an [Error] for every entity that is
    a function, and for every other entity returns a facade whose [data] is
    the entity. *)
Theorem anchor_rejects_functions :
  forall entity : value,
    (isFunction entity = true ->
     anchor entity = Throw (Error "Anchor does not support functions yet!"))
    /\ (isFunction entity = false ->
        exists self, anchor entity = Ok self /\ data self = entity).
Proof.
  intros entity. unfold anchor, Anchor. split; intros H; rewrite H.
  - reflexivity.
  - eexists. split; reflexivity.
Qed.

Lemma anchor_rejects_functions_witness :
  anchor (VFun 3) = Throw (Error "Anchor does not support functions yet!")
  /\ exists self, anchor (VStr "x") = Ok self /\ data self = VStr "x".
Proof.
  split.
  - exact (proj1 (anchor_rejects_functions (VFun 3)) eq_refl).
  - exact (proj2 (anchor_rejects_functions (VStr "x")) eq_refl).
Defined.

(* ================================================================== *)
(** ** Properties of the Validator: [initialize] *)

Lemma in_writer_some ks w :
  in_writer ks = Some w -> In w ks /\ (w = "in" \/ w = "enum").
Proof.
  induction ks as [|k rest IH]; simpl; [discriminate|].
  destruct (in_writer rest) as [w'|].
  - intros H. injection H as <-. destruct (IH eq_refl). tauto.
  - destruct (String.eqb_spec k "in") as [->|_]; simpl.
    + intros H. injection H as <-. tauto.
    + destruct (String.eqb_spec k "enum") as [->|_]; [|discriminate].
      intros H. injection H as <-. tauto.
Qed.

Lemma in_writer_none ks :
  in_writer ks = None -> ~ In "in" ks /\ ~ In "enum" ks.
Proof.
  induction ks as [|k rest IH]; simpl; [tauto|].
  destruct (in_writer rest) as [w'|]; [discriminate|].
  destruct (String.eqb_spec k "in") as [->|Hi]; simpl; [discriminate|].
  destruct (String.eqb_spec k "enum") as [->|He]; [discriminate|].
  intros _. destruct (IH eq_refl) as [H1 H2].
  split; (intros [H|H]; [congruence | tauto]).
Qed.

Lemma build_lookup_other attrsVal ks acc p :
  p <> "in" ->
  lookup (fold_left (initialize_prop attrsVal) ks acc) p
  = if mem p ks && negb (schema_only p) && negb (p =? "enum")
    then Some (obj_get attrsVal p) else lookup acc p.
Proof.
  intros Hp. revert acc. induction ks as [|k rest IH]; intros acc; simpl.
  - reflexivity.
  - rewrite IH. clear IH.
    destruct (mem p rest && negb (schema_only p) && negb (p =? "enum")) eqn:Ec.
    + apply andb_prop in Ec as [Ec1 Ec3]. apply andb_prop in Ec1 as [Ec1 Ec2].
      rewrite Ec1, Ec2, Ec3, orb_true_r. reflexivity.
    + unfold initialize_prop.
      destruct (String.eqb_spec p k) as [<-|Hk]; simpl.
      * destruct (schema_only p) eqn:Es; simpl; [reflexivity|].
        destruct (p =? "enum") eqn:Ee; simpl.
        -- apply lookup_set_other. congruence.
        -- apply lookup_set_same.
      * rewrite Ec.
        destruct (schema_only k); [reflexivity|].
        destruct (k =? "enum"); apply lookup_set_other; congruence.
Qed.

Lemma build_lookup_in attrsVal ks acc :
  lookup (fold_left (initialize_prop attrsVal) ks acc) "in"
  = match in_writer ks with
    | Some w => Some (obj_get attrsVal w)
    | None => lookup acc "in"
    end.
Proof.
  revert acc. induction ks as [|k rest IH]; intros acc; simpl.
  - reflexivity.
  - rewrite IH. destruct (in_writer rest) as [w|]; [reflexivity|].
    unfold initialize_prop.
    destruct (String.eqb_spec k "in") as [->|Hi]; simpl.
    + apply lookup_set_same.
    + destruct (String.eqb_spec k "enum") as [->|He]; simpl.
      * apply lookup_set_same.
      * destruct (schema_only k); [reflexivity|].
        apply lookup_set_other. exact Hi.
Qed.

Lemma obj_get_lookup (o : obj) k : In k (keys o) -> Some (obj_get o k) = lookup o k.
Proof.
  intros H. destruct (lookup_in_keys o k H) as [v Hv].
  unfold obj_get. rewrite Hv. reflexivity.
Qed.

(** The rule set that [initialize] builds for one attribute definition. *)
Lemma build_validation_spec (def : obj) :
  (forall p, schema_only p = true -> lookup (build_validation def) p = None)
  /\ lookup (build_validation def) "enum" = None
  /\ (forall p, schema_only p = false -> p <> "enum" -> p <> "in" ->
                lookup (build_validation def) p = lookup def p)
  /\ lookup (build_validation def) "in"
     = match in_writer (keys def) with
       | Some w => lookup def w
       | None => None
       end.
Proof.
  unfold build_validation. repeat split.
  - intros p Hs. rewrite build_lookup_other.
    + rewrite Hs, andb_false_r. reflexivity.
    + intros ->. discriminate Hs.
  - rewrite build_lookup_other by discriminate.
    rewrite andb_false_r. reflexivity.
  - intros p Hs He Hi. rewrite build_lookup_other by exact Hi.
    rewrite Hs. apply String.eqb_neq in He. rewrite He. simpl.
    rewrite andb_true_r. destruct (mem p (keys def)) eqn:Em.
    + apply obj_get_lookup, mem_In, Em.
    + symmetry. apply lookup_none, mem_false, Em.
  - rewrite build_lookup_in. destruct (in_writer (keys def)) as [w|] eqn:Ew.
    + apply obj_get_lookup. apply (in_writer_some _ _ Ew).
    + reflexivity.
Qed.

Lemma initialize_attrs_lookup attrs ks (validations : validations_map) attr :
  lookup (fold_left (initialize_attr attrs) ks validations) attr
  = if mem attr ks
    then Some (build_validation
                 (match lookup attrs attr with Some d => d | None => [] end))
    else lookup validations attr.
Proof.
  revert validations. induction ks as [|k rest IH]; intros validations; simpl.
  - reflexivity.
  - rewrite IH. destruct (mem attr rest) eqn:Em.
    + rewrite orb_true_r. reflexivity.
    + rewrite orb_false_r. unfold initialize_attr.
      rewrite lookup_set, String.eqb_sym.
      destruct (String.eqb_spec attr k) as [->|_]; reflexivity.
Qed.

(** C7 (as amended): [initialize] gives every declared attribute a rule set
    that has none of the schema-only keys and no key [enum], that copies
    every other property of the attribute definition except [in], and whose
    rule [in] has the argument of the definition's [enum] or [in]: of the one
    that the definition has or, when it has both, of the one declared
    later. *)
Theorem initialize_builds_validations :
  forall (rules : obj) (validations : validations_map)
         (attrs : list (string * obj)) (types : value)
         (rules' : obj) (validations' : validations_map),
    initialize rules validations attrs types = Ok (rules', validations') ->
    (forall attr def,
        lookup attrs attr = Some def ->
        exists validation,
          lookup validations' attr = Some validation
          /\ (forall p, schema_only p = true -> lookup validation p = None)
          /\ lookup validation "enum" = None
          /\ (forall p, schema_only p = false -> p <> "enum" -> p <> "in" ->
                        lookup validation p = lookup def p)
          /\ lookup validation "in"
             = match in_writer (keys def) with
               | Some w => lookup def w
               | None => None
               end
          /\ (lookup def "in" = None ->
              lookup validation "in" = lookup def "enum")
          /\ (lookup def "enum" = None ->
              lookup validation "in" = lookup def "in"))
    /\ (forall attr, lookup attrs attr = None ->
                     lookup validations' attr = lookup validations attr).
Proof.
  intros rules validations attrs types rules' validations' H.
  unfold initialize in H.
  destruct (define rules tt _ VUndefined) as [r|e]; simpl in H; [|discriminate].
  injection H as _ <-. split.
  - intros attr def Hdef. exists (build_validation def).
    rewrite initialize_attrs_lookup, Hdef.
    assert (Hm : mem attr (keys attrs) = true)
      by (apply mem_In; eapply lookup_keys, Hdef).
    rewrite Hm.
    destruct (build_validation_spec def) as (H1 & H2 & H3 & H4).
    repeat split; try assumption.
    + intros Hin. rewrite H4.
      destruct (in_writer (keys def)) as [w|] eqn:Ew.
      * destruct (in_writer_some _ _ Ew) as [Hw [->| ->]]; [|reflexivity].
        destruct (lookup_in_keys def "in" Hw) as [v Hv]. congruence.
      * destruct (in_writer_none _ Ew) as [_ Hne].
        symmetry. apply lookup_none, Hne.
    + intros Hen. rewrite H4.
      destruct (in_writer (keys def)) as [w|] eqn:Ew.
      * destruct (in_writer_some _ _ Ew) as [Hw [->| ->]]; [reflexivity|].
        destruct (lookup_in_keys def "enum" Hw) as [v Hv]. congruence.
      * destruct (in_writer_none _ Ew) as [Hni _].
        symmetry. apply lookup_none, Hni.
  - intros attr Hnone. rewrite initialize_attrs_lookup.
    destruct (mem attr (keys attrs)) eqn:Em; [|reflexivity].
    apply mem_In in Em. destruct (lookup_in_keys attrs attr Em) as [d Hd].
    congruence.
Qed.

Lemma initialize_builds_validations_witness :
  initialize [] [] status_attrs VUndefined
  = Ok ([], [("status", [("type", VStr "string"); ("in", VArr [VStr "b"])])])
  /\ exists validation,
       lookup [("status", [("type", VStr "string"); ("in", VArr [VStr "b"])])]
              "status" = Some validation
       /\ lookup validation "unique" = None
       /\ lookup validation "enum" = None
       /\ lookup validation "type" = Some (VStr "string")
       /\ lookup validation "in" = Some (VArr [VStr "b"]).
Proof.
  split; [reflexivity|].
  destruct (proj1 (initialize_builds_validations
                     [] [] status_attrs VUndefined _ _ eq_refl)
                  "status" _ eq_refl)
    as (validation & Hv & Hs & He & Hc & Hi & _).
  exists validation. repeat split.
  - exact Hv.
  - apply Hs. reflexivity.
  - exact He.
  - rewrite Hc; [reflexivity | reflexivity | discriminate | discriminate].
  - rewrite Hi. reflexivity.
Defined.

(** C7 fails as stated: the definition of [status] has the property [in] with
    the argument [['a']], and the rule set built for it has [in] with the
    argument of [enum] instead. *)
Lemma initialize_drops_in_before_enum :
  exists validations',
    initialize [] [] status_attrs VUndefined = Ok ([], validations')
    /\ exists def validation,
         lookup status_attrs "status" = Some def
         /\ lookup validations' "status" = Some validation
         /\ schema_only "in" = false
         /\ lookup def "in" = Some (VArr [VStr "a"])
         /\ lookup validation "in" = Some (VArr [VStr "b"])
         /\ lookup validation "in" <> lookup def "in".
Proof.
  eexists. split; [reflexivity|].
  do 2 eexists. repeat split; try reflexivity. simpl. discriminate.
Qed.

(* ================================================================== *)
(** ** Properties of the Validator: [validate] *)

Lemma uniq_fold_In x l seen :
  In x (fold_left (fun seen x => if mem x seen then seen else (seen ++ [x])%list)
                  l seen)
  <-> In x seen \/ In x l.
Proof.
  revert seen. induction l as [|y rest IH]; intros seen; simpl.
  - tauto.
  - rewrite IH. destruct (mem y seen) eqn:Em.
    + apply mem_In in Em. split; [tauto|].
      intros [H|[<-|H]]; tauto.
    + rewrite in_app_iff. simpl. tauto.
Qed.

Lemma uniq_In x l : In x (uniq l) <-> In x l.
Proof. unfold uniq. rewrite uniq_fold_In. simpl. tauto. Qed.

Lemma intersection_In a array other :
  In a (intersection array other) <-> In a array /\ In a other.
Proof.
  unfold intersection. rewrite filter_In, uniq_In, mem_In. tauto.
Qed.

Lemma selected_declared validations values presentOnly a :
  In a (selected validations values presentOnly) -> In a (keys validations).
Proof.
  unfold selected. destruct (isFunction presentOnly); [tauto|].
  destruct (truthy presentOnly); [|tauto].
  rewrite intersection_In. tauto.
Qed.

Lemma toString_equals_plain foreign v s :
  v <> VUndefined -> v <> VNull -> plain v = true ->
  toString_equals foreign v s = Ok (ToString v =? s).
Proof.
  intros Hu Hn Hp. destruct v; try congruence; try reflexivity.
  - discriminate Hp.
  - unfold toString_equals. rewrite Hp. reflexivity.
  - simpl in *. destruct (lookup props "toString"); [discriminate | reflexivity].
Qed.

Section ValidateFacts.
Variable match_type : value -> value -> list ValidationError.
Variable match_rule : value -> string -> value -> list ValidationError.
Variable foreign_equals : value -> string -> result bool.
Variable validations : validations_map.
Variable values : obj.

Let validate_attr :=
  validate_attr match_type match_rule foreign_equals validations values.

(** What one check adds to the shared map of errors is what it adds to an
    empty map. *)
Lemma validate_attr_frame a errors :
  validate_attr a errors
  = (alone <- validate_attr a [] ;;
     Ok (match lookup alone a with
         | Some err => set errors a err
         | None => errors
         end)).
Proof.
  unfold validate_attr, Validator.validate_attr.
  destruct (lookup validations a) as [curValidation|]; [|reflexivity].
  simpl.
  destruct (negb _ && _); [reflexivity|].
  destruct (strict_eq _ (VStr "text")); [reflexivity|].
  destruct (boolean_check _ _ _) as [[|]|e]; simpl; try reflexivity.
  destruct (anchor _) as [subject|e]; simpl; [|reflexivity].
  destruct (to _ _ _ _); simpl; [reflexivity|].
  rewrite String.eqb_refl. reflexivity.
Qed.

(** Alone, a check leaves the map empty or one entry under its own name,
    whose list of violations is not empty. *)
Lemma validate_attr_alone a alone :
  validate_attr a [] = Ok alone ->
  alone = [] \/ exists e es, alone = [(a, e :: es)].
Proof.
  unfold validate_attr, Validator.validate_attr.
  destruct (lookup validations a) as [curValidation|]; [|discriminate].
  simpl.
  destruct (negb _ && _); [intros H; injection H as <-; tauto|].
  destruct (strict_eq _ (VStr "text")); [intros H; injection H as <-; tauto|].
  destruct (boolean_check _ _ _) as [[|]|e]; simpl;
    [intros H; injection H as <-; tauto| |discriminate].
  destruct (anchor _) as [subject|e]; simpl; [|discriminate].
  unfold to. destruct (to_errors _ _ _ _) as [|e es]; simpl;
    intros H; injection H as <-; [tauto|].
  right. eauto.
Qed.

Lemma each_lookup l :
  forall errors errors',
    each l validate_attr errors = Ok errors' ->
    forall a,
      (In a l ->
       exists alone,
         validate_attr a [] = Ok alone
         /\ lookup errors' a = match lookup alone a with
                               | Some err => Some err
                               | None => lookup errors a
                               end)
      /\ (~ In a l -> lookup errors' a = lookup errors a).
Proof.
  induction l as [|x rest IH]; intros errors errors' H a; simpl in H.
  - injection H as <-. split; [intros [] | reflexivity].
  - rewrite validate_attr_frame in H.
    destruct (validate_attr x []) as [alone_x|e] eqn:Ex; simpl in H; [|discriminate].
    destruct (IH _ _ H a) as [IHin IHout].
    assert (Hx : forall b, b <> x ->
              lookup (match lookup alone_x x with
                      | Some err => set errors x err
                      | None => errors
                      end) b = lookup errors b).
    { intros b Hb. destruct (lookup alone_x x); [|reflexivity].
      apply lookup_set_other. congruence. }
    destruct (in_dec string_dec a rest) as [Hr|Hr].
    + split; [|simpl; tauto].
      intros _. destruct (IHin Hr) as (alone & Ha & Hl).
      exists alone. split; [exact Ha|]. rewrite Hl.
      destruct (lookup alone a) eqn:El; [reflexivity|].
      destruct (string_dec a x) as [->|Hne]; [|apply Hx, Hne].
      assert (alone = alone_x) by congruence. subst alone.
      rewrite El. reflexivity.
    + rewrite (IHout Hr). split.
      * intros [<-|Hin]; [|contradiction].
        exists alone_x. split; [exact Ex|].
        destruct (lookup alone_x x); [apply lookup_set_same | reflexivity].
      * simpl. intros Hn. apply Hx. intros ->. tauto.
Qed.

Lemma each_returns l :
  (forall a, In a l -> returns (validate_attr a []) = true) ->
  forall errors, exists errors', each l validate_attr errors = Ok errors'.
Proof.
  induction l as [|x rest IH]; intros Hall errors; simpl.
  - eauto.
  - rewrite validate_attr_frame.
    specialize (Hall x (or_introl eq_refl)) as Hx.
    destruct (validate_attr x []) as [alone|e]; [|discriminate Hx]. simpl.
    apply IH. intros a Ha. apply Hall. right. exact Ha.
Qed.

Lemma lookup_all_none (errors : errors_map) :
  (forall a, lookup errors a = None) -> errors = [].
Proof.
  destruct errors as [|[k v] rest]; [reflexivity|].
  intros H. specialize (H k). simpl in H. rewrite String.eqb_refl in H.
  discriminate H.
Qed.

(** The fan-in: when no check throws, [validate] ends in one call of the
    callback, and the map of errors holds, for every checked attribute, what
    its check found. *)
Lemma validate_fan_in presentOnly cb :
  isFunction (callback presentOnly cb) = true ->
  (forall a, In a (selected validations values presentOnly) ->
             returns (validate_attr a []) = true) ->
  exists errors,
    validate match_type match_rule foreign_equals validations values
             presentOnly cb
    = Ok [mkCall (callback presentOnly cb) (outcome errors)]
    /\ (forall a, In a (selected validations values presentOnly) ->
                  exists alone, validate_attr a [] = Ok alone
                                /\ lookup errors a = lookup alone a)
    /\ (forall a, ~ In a (selected validations values presentOnly) ->
                  lookup errors a = None).
Proof.
  intros Hcb Hall.
  destruct (each_returns _ Hall []) as [errors He].
  exists errors. split; [|split].
  - unfold validate. fold validate_attr. rewrite He. simpl.
    unfold invoke. rewrite Hcb. destruct errors; reflexivity.
  - intros a Ha.
    destruct (proj1 (each_lookup _ _ _ He a) Ha) as (alone & E & Hl).
    exists alone. split; [exact E|]. rewrite Hl.
    destruct (lookup alone a); reflexivity.
  - intros a Ha. apply (proj2 (each_lookup _ _ _ He a) Ha).
Qed.



End ValidateFacts.

Section ValidateOutcome.
Variable match_type : value -> value -> list ValidationError.
Variable match_rule : value -> string -> value -> list ValidationError.
Variable foreign_equals : value -> string -> result bool.
Variable validations : validations_map.
Variable values : obj.

Let validate_attr :=
  validate_attr match_type match_rule foreign_equals validations values.

Lemma validate_inv presentOnly cb calls :
  validate match_type match_rule foreign_equals validations values
           presentOnly cb = Ok calls ->
  exists errors,
    each (selected validations values presentOnly) validate_attr [] = Ok errors
    /\ calls = [mkCall (callback presentOnly cb) (outcome errors)].
Proof.
  unfold validate. fold validate_attr.
  destruct (each _ validate_attr []) as [errors|e]; simpl; [|discriminate].
  intros H. exists errors. split; [reflexivity|].
  unfold invoke in H.
  destruct (isFunction (callback presentOnly cb)); destruct errors;
    simpl in *; congruence.
Qed.

(** A map of errors that reaches the callback has no entry for an attribute
    that was not checked, or whose check found nothing. *)
Lemma validate_no_entry presentOnly cb calls c errors a :
  validate match_type match_rule foreign_equals validations values
           presentOnly cb = Ok calls ->
  In c calls -> argument c = WithValidationError errors ->
  ~ In a (selected validations values presentOnly)
  \/ validate_attr a [] = Ok [] ->
  lookup errors a = None.
Proof.
  intros Hv Hc Ha Hcase.
  destruct (validate_inv _ _ _ Hv) as (errs & He & ->).
  destruct Hc as [<-|[]]. simpl in Ha.
  assert (errs = errors) by (destruct errs; simpl in Ha; congruence).
  subst errs.
  destruct (in_dec string_dec a (selected validations values presentOnly))
    as [Hin|Hout].
  - destruct Hcase as [Hn|Hok]; [contradiction|].
    destruct (proj1 (each_lookup _ _ _ _ _ _ _ _ He a) Hin) as (alone & E & Hl).
    fold validate_attr in E. rewrite Hok in E. injection E as <-.
    exact Hl.
  - apply (proj2 (each_lookup _ _ _ _ _ _ _ _ He a) Hout).
Qed.

End ValidateOutcome.


Lemma mem_keys_lookup {A} (o : list (string * A)) k :
  mem k (keys o) = match lookup o k with Some _ => true | None => false end.
Proof.
  destruct (lookup o k) eqn:E.
  - apply mem_In. eapply lookup_keys, E.
  - apply mem_false. intros Hin.
    destruct (lookup_in_keys o k Hin) as [v Hv]. congruence.
Qed.

Lemma each_ext_in {S} (f g : string -> S -> result S) l s :
  (forall a s', In a l -> f a s' = g a s') -> each l f s = each l g s.
Proof.
  revert s. induction l as [|x rest IH]; intros s H; simpl; [reflexivity|].
  rewrite (H x s) by (left; reflexivity).
  destruct (g x s) as [s'|e]; simpl; [|reflexivity].
  apply IH. intros a s'' Ha. apply H. right. exact Ha.
Qed.

Lemma uniq_fold_NoDup l seen :
  NoDup (seen ++ l) ->
  fold_left (fun seen x => if mem x seen then seen else (seen ++ [x])%list) l seen
  = (seen ++ l)%list.
Proof.
  revert seen. induction l as [|x rest IH]; intros seen Hnd; simpl.
  - rewrite app_nil_r. reflexivity.
  - assert (Hx : mem x seen = false).
    { apply mem_false. intros Hin. apply NoDup_remove_2 in Hnd.
      apply Hnd, in_or_app. left. exact Hin. }
    rewrite Hx. rewrite IH; rewrite <- app_assoc; [reflexivity | exact Hnd].
Qed.

Lemma uniq_NoDup l : NoDup l -> uniq l = l.
Proof. intros H. unfold uniq. apply (uniq_fold_NoDup l []). exact H. Qed.

Lemma filter_all {A} (f : A -> bool) l :
  (forall x, In x l -> f x = true) -> filter f l = l.
Proof.
  induction l as [|x rest IH]; simpl; intros H; [reflexivity|].
  rewrite (H x) by (left; reflexivity). f_equal.
  apply IH. intros y Hy. apply H. right. exact Hy.
Qed.

Lemma filter_none {A} (f : A -> bool) l :
  (forall x, In x l -> f x = false) -> filter f l = [].
Proof.
  induction l as [|x rest IH]; simpl; intros H; [reflexivity|].
  rewrite (H x) by (left; reflexivity).
  apply IH. intros y Hy. apply H. right. exact Hy.
Qed.

Section ValidateMore.
Variable match_type : value -> value -> list ValidationError.
Variable match_rule : value -> string -> value -> list ValidationError.
Variable foreign_equals : value -> string -> result bool.

Let validate := validate match_type match_rule foreign_equals.
Let validate_attr := validate_attr match_type match_rule foreign_equals.

Lemma validate_attr_values_ext validations (values values' : obj) a errors :
  lookup values a = lookup values' a ->
  validate_attr validations values a errors
  = validate_attr validations values' a errors.
Proof.
  intros H. unfold validate_attr, Validator.validate_attr, obj_get.
  rewrite H. reflexivity.
Qed.

Lemma validate_attr_validations_ext (validations validations' : validations_map)
      values a errors :
  lookup validations a = lookup validations' a ->
  validate_attr validations values a errors
  = validate_attr validations' values a errors.
Proof.
  intros H. unfold validate_attr, Validator.validate_attr.
  rewrite H. reflexivity.
Qed.

Lemma selected_values_ext validations (values values' : obj) presentOnly :
  (forall a, In a (keys validations) -> lookup values a = lookup values' a) ->
  selected validations values presentOnly
  = selected validations values' presentOnly.
Proof.
  intros H. unfold selected, intersection.
  destruct (isFunction presentOnly); [reflexivity|].
  destruct (truthy presentOnly); [|reflexivity].
  apply filter_ext_in. intros a Ha. apply (proj1 (uniq_In _ _)) in Ha.
  rewrite !mem_keys_lookup, (H a Ha). reflexivity.
Qed.

Lemma validate_returns_eq validations values presentOnly cb :
  returns (validate validations values presentOnly cb)
  = returns (each (selected validations values presentOnly)
                  (validate_attr validations values) [])
    && isFunction (callback presentOnly cb).
Proof.
  unfold validate, Validator.validate. fold validate_attr.
  destruct (each _ _ _) as [errors|e]; simpl; [|reflexivity].
  unfold invoke.
  destruct errors; destruct (isFunction (callback presentOnly cb)); reflexivity.
Qed.

Lemma each_returns_iff validations values l :
  returns (each l (validate_attr validations values) []) = true <->
  forall a, In a l -> returns (validate_attr validations values a []) = true.
Proof.
  split.
  - destruct (each l (validate_attr validations values) []) as [errors|e] eqn:E;
      [|discriminate].
    intros _ a Ha.
    destruct (proj1 (each_lookup _ _ _ _ _ _ _ _ E a) Ha) as (alone & Hal & _).
    fold validate_attr in Hal. rewrite Hal. reflexivity.
  - intros Hall.
    destruct (each_returns match_type match_rule foreign_equals validations values l
                          Hall [])
      as [errors He].
    fold validate_attr in He. rewrite He. reflexivity.
Qed.

Lemma validate_attr_text validations values a rs errors :
  lookup validations a = Some rs ->
  obj_get rs "type" = VStr "text" ->
  validate_attr validations values a errors = Ok errors.
Proof.
  intros Hrs Ht. unfold validate_attr, Validator.validate_attr.
  rewrite Hrs, Ht. simpl. destruct (negb _ && _); reflexivity.
Qed.

End ValidateMore.

(** The callback's map of errors, entry by entry: when no check throws,
    [validate] ends in one call of the callback; the map is empty exactly
    when no selected attribute produced violations, and otherwise it has, for
    each failing attribute and for no other, the list of its violations. *)
Lemma validate_fan_in_entries :
  forall (match_type : value -> value -> list ValidationError)
         (match_rule : value -> string -> value -> list ValidationError)
         (foreign_equals : value -> string -> result bool)
         (validations : validations_map) (values : obj)
         (presentOnly cb : value),
    isFunction (callback presentOnly cb) = true ->
    (forall a, In a (selected validations values presentOnly) ->
               returns (validate_attr match_type match_rule foreign_equals
                                      validations values a []) = true) ->
    exists errors,
      validate match_type match_rule foreign_equals validations values
               presentOnly cb
      = Ok [mkCall (callback presentOnly cb)
                   (match errors with
                    | [] => NoArgument
                    | _ :: _ => WithValidationError errors
                    end)]
      /\ (errors = [] <->
          forall a, In a (selected validations values presentOnly) ->
                    validate_attr match_type match_rule foreign_equals
                                  validations values a []
                    = Ok [])
      /\ (forall a violations,
             lookup errors a = Some violations <->
             In a (selected validations values presentOnly)
             /\ validate_attr match_type match_rule foreign_equals
                              validations values a []
                = Ok [(a, violations)]).
Proof.
  intros match_type match_rule foreign_equals validations values presentOnly cb
         Hcb Hall.
  destruct (validate_fan_in match_type match_rule foreign_equals validations
                            values presentOnly cb Hcb Hall)
    as (errors & Hv & Hin & Hout).
  exists errors. split; [exact Hv|]. split.
  - split.
    + intros -> a Ha. destruct (Hin a Ha) as (alone & E & Hl).
      destruct (validate_attr_alone _ _ _ _ _ _ _ E) as [->|(e & es & ->)];
        [exact E|].
      simpl in Hl. rewrite String.eqb_refl in Hl. discriminate Hl.
    + intros Hnone. apply lookup_all_none. intros a.
      destruct (in_dec string_dec a (selected validations values presentOnly))
        as [Ha|Ha]; [|apply Hout, Ha].
      destruct (Hin a Ha) as (alone & E & Hl).
      rewrite (Hnone a Ha) in E. injection E as <-. exact Hl.
  - intros a violations. split.
    + intros Hl.
      destruct (in_dec string_dec a (selected validations values presentOnly))
        as [Ha|Ha]; [|rewrite (Hout a Ha) in Hl; discriminate Hl].
      split; [exact Ha|].
      destruct (Hin a Ha) as (alone & E & Hl').
      destruct (validate_attr_alone _ _ _ _ _ _ _ E) as [->|(e & es & ->)].
      * rewrite Hl in Hl'. discriminate Hl'.
      * rewrite Hl in Hl'. simpl in Hl'. rewrite String.eqb_refl in Hl'.
        injection Hl' as ->. exact E.
    + intros [Ha E]. destruct (Hin a Ha) as (alone & E' & Hl).
      rewrite E in E'. injection E' as <-.
      rewrite Hl. simpl. rewrite String.eqb_refl. reflexivity.
Qed.





(** C4 (as amended): for an attribute whose rule set has no [required], a
    value that is null or the empty string, or that is absent from the bag
    under a name that objects do not inherit, ends the check at once: the
    map of errors is left as it was, whatever the Matcher would say, and no
    map that reaches the callback has an entry for the attribute. *)
Theorem validate_skips_optional_empty :
  forall (match_type : value -> value -> list ValidationError)
         (match_rule : value -> string -> value -> list ValidationError)
         (foreign_equals : value -> string -> result bool)
         (validations : validations_map) (values : obj)
         (a : string) (rs : obj),
    lookup validations a = Some rs ->
    lookup rs "required" = None ->
    (lookup values a = None /\ inherited a = None)
    \/ lookup values a = Some VNull
    \/ lookup values a = Some (VStr EmptyString) ->
    (forall errors,
        validate_attr match_type match_rule foreign_equals validations values
                      a errors
        = Ok errors)
    /\ (forall presentOnly cb calls c errors,
           validate match_type match_rule foreign_equals validations values
                    presentOnly cb
           = Ok calls ->
           In c calls -> argument c = WithValidationError errors ->
           lookup errors a = None).
Proof.
  intros match_type match_rule foreign_equals validations values a rs
         Hrs Hreq Hval.
  assert (Hstep : forall errors,
             validate_attr match_type match_rule foreign_equals validations
                           values a errors
             = Ok errors).
  { intros errors. unfold validate_attr. rewrite Hrs. simpl.
    unfold obj_get at 1. rewrite Hreq. simpl.
    unfold obj_get. destruct Hval as [[-> ->] | [-> | ->]]; reflexivity. }
  split; [exact Hstep|].
  intros presentOnly cb calls c errors Hv Hc Ha.
  eapply validate_no_entry; try eassumption.
  right. apply Hstep.
Qed.

Lemma validate_skips_optional_empty_witness :
  (forall errors,
      validate_attr builtin_match_type builtin_match_rule never_equal
                    name_age_schema [("name", VStr "Ann")] "age" errors
      = Ok errors)
  /\ (forall presentOnly cb calls c errors,
         validate builtin_match_type builtin_match_rule never_equal
                  name_age_schema [("name", VStr "Ann")] presentOnly cb
         = Ok calls ->
         In c calls -> argument c = WithValidationError errors ->
         lookup errors "age" = None).
Proof.
  apply (validate_skips_optional_empty
           builtin_match_type builtin_match_rule never_equal name_age_schema
           [("name", VStr "Ann")] "age"
           [("type", VStr "integer"); ("min", VNum 0)]).
  - reflexivity.
  - reflexivity.
  - left. split; reflexivity.
Defined.

(** C4 fails as stated: the optional attribute [constructor] is absent from
    the empty bag, yet reading it finds the method that every object
    inherits; the check goes on with that function and throws. *)
Lemma validate_reads_inherited_constructor :
  lookup constructor_schema "constructor" = Some [("type", VStr "string")]
  /\ lookup [("type", VStr "string")] "required" = None
  /\ lookup ([] : obj) "constructor" = None
  /\ validate_attr builtin_match_type builtin_match_rule never_equal
                   constructor_schema [] "constructor" []
     = Throw (Error "Anchor does not support functions yet!")
  /\ validate builtin_match_type builtin_match_rule never_equal
              constructor_schema [] VUndefined (VFun 1)
     = Throw (Error "Anchor does not support functions yet!").
Proof. repeat split; reflexivity. Qed.

(** C5: the manual check of a required boolean.  For a value that is present
    and not null and whose [toString] is built in, the source does what is
    claimed: the check accepts the value exactly when its string form is
    [true] or [false], and every other value goes on to the facade and the
    Matcher. *)
Lemma boolean_check_present :
  forall (match_type : value -> value -> list ValidationError)
         (match_rule : value -> string -> value -> list ValidationError)
         (foreign_equals : value -> string -> result bool)
         (validations : validations_map) (values : obj)
         (a : string) (rs : obj) (v : value) (errors : errors_map),
    lookup validations a = Some rs ->
    truthy (obj_get rs "required") = true ->
    obj_get rs "type" = VStr "boolean" ->
    obj_get values a = v -> v <> VUndefined -> v <> VNull ->
    plain v = true ->
    validate_attr match_type match_rule foreign_equals validations values
                  a errors
    = if (ToString v =? "true") || (ToString v =? "false")
      then Ok errors
      else subject <- anchor v ;;
           match to match_type match_rule subject rs with
           | ReturnsFalse => Ok errors
           | ReturnsErrors err => Ok (set errors a err)
           end.
Proof.
  intros match_type match_rule foreign_equals validations values a rs v errors
         Hrs Hreq Hty Hv Hu Hn Hp.
  unfold validate_attr, boolean_check. rewrite Hrs, Hreq, Hty, Hv. simpl.
  assert (Hi : (if is_undefined v then VNull else v) = v)
    by (destruct v; try reflexivity; congruence).
  rewrite Hi, !(toString_equals_plain _ _ _ Hu Hn Hp). simpl.
  destruct (ToString v =? "true"); simpl; [reflexivity|].
  destruct (ToString v =? "false"); reflexivity.
Qed.

(** A required boolean whose value is an object with a [toString] of its own
    that is not a function: the call of [toString] throws. *)
Lemma boolean_check_uncallable_toString_throws :
  forall (match_type : value -> value -> list ValidationError)
         (match_rule : value -> string -> value -> list ValidationError)
         (foreign_equals : value -> string -> result bool)
         (validations : validations_map) (values : obj)
         (a : string) (rs props : obj) (f : value) (errors : errors_map),
    lookup validations a = Some rs ->
    truthy (obj_get rs "required") = true ->
    obj_get rs "type" = VStr "boolean" ->
    obj_get values a = VObj props ->
    lookup props "toString" = Some f -> isFunction f = false ->
    validate_attr match_type match_rule foreign_equals validations values
                  a errors
    = Throw (TypeError "value.toString").
Proof.
  intros match_type match_rule foreign_equals validations values a rs props f
         errors Hrs Hreq Hty Hv Hl Hf.
  unfold validate_attr, boolean_check. rewrite Hrs, Hreq, Hty, Hv. simpl.
  rewrite Hl, Hf. reflexivity.
Qed.

Lemma boolean_check_uncallable_toString_throws_witness :
  validate_attr builtin_match_type builtin_match_rule never_equal active_schema
                [("active", VObj [("toString", VStr "x")])] "active" []
  = Throw (TypeError "value.toString").
Proof.
  apply (boolean_check_uncallable_toString_throws
           builtin_match_type builtin_match_rule never_equal active_schema
           [("active", VObj [("toString", VStr "x")])] "active"
           [("type", VStr "boolean"); ("required", VBool true)]
           [("toString", VStr "x")] (VStr "x") []);
    reflexivity.
Defined.

(** C5, where the source departs from it: for a required boolean whose value
    is absent or null the check throws a [TypeError] in place of going on to
    the Matcher. *)
Lemma boolean_check_null_throws :
  forall (match_type : value -> value -> list ValidationError)
         (match_rule : value -> string -> value -> list ValidationError)
         (foreign_equals : value -> string -> result bool)
         (validations : validations_map) (values : obj)
         (a : string) (rs : obj) (errors : errors_map),
    lookup validations a = Some rs ->
    truthy (obj_get rs "required") = true ->
    obj_get rs "type" = VStr "boolean" ->
    obj_get values a = VUndefined \/ obj_get values a = VNull ->
    validate_attr match_type match_rule foreign_equals validations values a errors
    = Throw (TypeError "value.toString").
Proof.
  intros match_type match_rule foreign_equals validations values a rs errors
         Hrs Hreq Hty Hv.
  unfold validate_attr, boolean_check. rewrite Hrs, Hreq, Hty. simpl.
  destruct Hv as [-> | ->]; reflexivity.
Qed.

(** C5 at the failing input: [active] is a required boolean and the values
    bag is empty; [validate] throws, where the Matcher on the same value and
    rule set reports violations. *)
Theorem validate_required_boolean_absent_throws :
  validate builtin_match_type builtin_match_rule never_equal active_schema []
           VUndefined (VFun 0)
  = Throw (TypeError "value.toString")
  /\ to builtin_match_type builtin_match_rule (mkAnchor VNull)
        [("type", VStr "boolean"); ("required", VBool true)]
     = ReturnsErrors [mkError "type" VNull []; mkError "required" VNull []].
Proof. split; reflexivity. Qed.

(** The examples of the specification for the boolean special case. *)
Lemma validate_boolean_examples :
  validate builtin_match_type builtin_match_rule never_equal active_schema
           [("active", VStr "false")] VUndefined (VFun 0)
  = Ok [mkCall (VFun 0) NoArgument]
  /\ validate builtin_match_type builtin_match_rule never_equal active_schema
              [("active", VStr "maybe")] VUndefined (VFun 0)
     = Ok [mkCall (VFun 0)
             (WithValidationError
                [("active", [mkError "type" (VStr "maybe") []])])].
Proof. split; reflexivity. Qed.

(** C6 (as amended): in every call of [validate] in which no check of an
    attribute throws, after all selected attributes have been checked the
    callback is called exactly once: with no argument when no attribute
    produced violations, and otherwise with the map that has, for each
    failing attribute and for no other, the list of its violations. *)
Theorem validate_calls_back_once :
  forall (match_type : value -> value -> list ValidationError)
         (match_rule : value -> string -> value -> list ValidationError)
         (foreign_equals : value -> string -> result bool)
         (validations : validations_map) (values : obj)
         (presentOnly cb : value),
    isFunction (callback presentOnly cb) = true ->
    (forall a, In a (selected validations values presentOnly) ->
               returns (validate_attr match_type match_rule foreign_equals validations values
                                      a []) = true) ->
    exists errors,
      validate match_type match_rule foreign_equals validations values presentOnly cb
      = Ok [mkCall (callback presentOnly cb)
                   (match errors with
                    | [] => NoArgument
                    | _ :: _ => WithValidationError errors
                    end)]
      /\ (errors = [] <->
          forall a, In a (selected validations values presentOnly) ->
                    validate_attr match_type match_rule foreign_equals validations values a []
                    = Ok [])
      /\ (forall a violations,
             lookup errors a = Some violations <->
             In a (selected validations values presentOnly)
             /\ validate_attr match_type match_rule foreign_equals validations values a []
                = Ok [(a, violations)]).
Proof.
  intros match_type match_rule foreign_equals validations values presentOnly cb.
  apply validate_fan_in_entries.
Qed.

Lemma validate_calls_back_once_witness :
  exists errors,
    validate builtin_match_type builtin_match_rule never_equal name_age_schema
             ann_minus_one VUndefined (VFun 0)
    = Ok [mkCall (VFun 0)
                 (match errors with
                  | [] => NoArgument
                  | _ :: _ => WithValidationError errors
                  end)]
    /\ (errors = [] <->
        forall a, In a (selected name_age_schema ann_minus_one VUndefined) ->
                  validate_attr builtin_match_type builtin_match_rule never_equal
                                name_age_schema ann_minus_one a []
                  = Ok [])
    /\ (forall a violations,
           lookup errors a = Some violations <->
           In a (selected name_age_schema ann_minus_one VUndefined)
           /\ validate_attr builtin_match_type builtin_match_rule never_equal
                            name_age_schema ann_minus_one a []
              = Ok [(a, violations)]).
Proof.
  apply (validate_calls_back_once
           builtin_match_type builtin_match_rule never_equal name_age_schema
           ann_minus_one VUndefined (VFun 0)).
  - reflexivity.
  - intros a Hin. simpl in Hin.
    destruct Hin as [<-|[<-|[]]]; reflexivity.
Defined.

(** The end-to-end example of the specification. *)
Lemma validate_end_to_end :
  validate builtin_match_type builtin_match_rule never_equal name_age_schema
           ann_minus_one VUndefined (VFun 0)
  = Ok [mkCall (VFun 0)
          (WithValidationError [("age", [mkError "min" (VNum (-1)) []])])]
  /\ validate builtin_match_type builtin_match_rule never_equal name_age_schema
              [("name", VStr "Ann"); ("age", VNum 5)] VUndefined (VFun 0)
     = Ok [mkCall (VFun 0) NoArgument].
Proof. split; reflexivity. Qed.

(** C6 fails as stated: the check of [email] throws, and the callback is
    not called at all. *)
Lemma validate_throws_without_callback :
  validate builtin_match_type builtin_match_rule never_equal name_email_schema
           [("name", VStr "x"); ("email", VFun 7)] VUndefined (VFun 0)
  = Throw (Error "Anchor does not support functions yet!")
  /\ forall calls,
       validate builtin_match_type builtin_match_rule never_equal name_email_schema
                [("name", VStr "x"); ("email", VFun 7)] VUndefined (VFun 0)
       <> Ok calls.
Proof. split; [reflexivity | intros calls; discriminate]. Qed.


(** C8: with a true [presentOnly], [validate] checks exactly the declared
    attributes that are keys of the values bag, and with a false or omitted
    [presentOnly] exactly the declared attributes: it returns if and only if
    the callback is a function and the check of every selected attribute
    returns, whatever the checks of the other attributes would do, and the
    map of errors that it passes on has the violations of every failing
    selected attribute and of no other.  So in present-only mode no map of
    errors has an entry for a declared attribute that the bag lacks. *)
Theorem validate_present_only :
  forall (match_type : value -> value -> list ValidationError)
         (match_rule : value -> string -> value -> list ValidationError)
         (foreign_equals : value -> string -> result bool)
         (validations : validations_map) (values : obj)
         (presentOnly cb : value),
    (isFunction presentOnly = false -> truthy presentOnly = true ->
     forall a, In a (selected validations values presentOnly) <->
               In a (keys validations) /\ In a (keys values))
    /\ (isFunction presentOnly = true \/ truthy presentOnly = false ->
        selected validations values presentOnly = keys validations)
    /\ (returns (validate match_type match_rule foreign_equals validations
                          values presentOnly cb) = true <->
        isFunction (callback presentOnly cb) = true
        /\ forall a, In a (selected validations values presentOnly) ->
                     returns (validate_attr match_type match_rule
                                            foreign_equals validations values
                                            a []) = true)
    /\ (forall calls,
           validate match_type match_rule foreign_equals validations values
                    presentOnly cb = Ok calls ->
           exists errors,
             calls = [mkCall (callback presentOnly cb) (outcome errors)]
             /\ forall a violations,
                  lookup errors a = Some violations <->
                  In a (selected validations values presentOnly)
                  /\ validate_attr match_type match_rule foreign_equals
                                   validations values a []
                     = Ok [(a, violations)])
    /\ (isFunction presentOnly = false -> truthy presentOnly = true ->
        forall a calls c errors,
          ~ In a (keys values) ->
          validate match_type match_rule foreign_equals validations values
                   presentOnly cb = Ok calls ->
          In c calls -> argument c = WithValidationError errors ->
          lookup errors a = None).
Proof.
  intros match_type match_rule foreign_equals validations values presentOnly cb.
  assert (Hsel : isFunction presentOnly = false -> truthy presentOnly = true ->
                 forall a, In a (selected validations values presentOnly) <->
                           In a (keys validations) /\ In a (keys values)).
  { intros Hf Ht a. unfold selected. rewrite Hf, Ht. apply intersection_In. }
  assert (Hret : returns (validate match_type match_rule foreign_equals
                                   validations values presentOnly cb) = true <->
                 isFunction (callback presentOnly cb) = true
                 /\ forall a, In a (selected validations values presentOnly) ->
                              returns (validate_attr match_type match_rule
                                         foreign_equals validations values
                                         a []) = true).
  { rewrite validate_returns_eq, andb_true_iff, each_returns_iff. tauto. }
  split; [exact Hsel|]. split; [|split; [exact Hret|split]].
  - unfold selected. intros [-> | Ht]; [reflexivity|].
    rewrite Ht. destruct (isFunction presentOnly); reflexivity.
  - intros calls Hv.
    assert (Hr : returns (validate match_type match_rule foreign_equals
                                   validations values presentOnly cb) = true)
      by (rewrite Hv; reflexivity).
    apply Hret in Hr as [Hcb Hall].
    destruct (validate_fan_in_entries match_type match_rule foreign_equals
                validations values presentOnly cb Hcb Hall)
      as (errors & Hv' & _ & Hent).
    exists errors. split; [|exact Hent].
    rewrite Hv in Hv'. injection Hv' as ->. reflexivity.
  - intros Hf Ht a calls c errors Ha Hv Hc Harg.
    eapply validate_no_entry; try eassumption.
    left. rewrite (Hsel Hf Ht). tauto.
Qed.

Lemma validate_present_only_witness :
  (forall a, In a (selected name_email_schema [("name", VStr "x")] (VBool true))
             <-> In a (keys name_email_schema)
                 /\ In a (keys [("name", VStr "x")]))
  /\ (forall a calls c errors,
         ~ In a (keys [("name", VStr "x")]) ->
         validate builtin_match_type builtin_match_rule never_equal
                  name_email_schema [("name", VStr "x")] (VBool true) (VFun 0)
         = Ok calls ->
         In c calls -> argument c = WithValidationError errors ->
         lookup errors a = None).
Proof.
  pose proof (validate_present_only
                builtin_match_type builtin_match_rule never_equal
                name_email_schema [("name", VStr "x")] (VBool true) (VFun 0))
    as (Hsel & _ & _ & _ & Hnone).
  split; [exact (Hsel eq_refl eq_refl) | exact (Hnone eq_refl eq_refl)].
Defined.

(** The example of the specification for the present-only mode: only [name]
    is checked, and nothing is reported for the missing [email]; without the
    mode the missing [email] is reported. *)
Lemma validate_present_only_example :
  selected name_email_schema [("name", VStr "x")] (VBool true) = ["name"]
  /\ validate builtin_match_type builtin_match_rule never_equal
              name_email_schema [("name", VStr "x")] (VBool true) (VFun 0)
     = Ok [mkCall (VFun 0) NoArgument]
  /\ validate builtin_match_type builtin_match_rule never_equal
              name_email_schema [("name", VStr "x")] (VBool false) (VFun 0)
     = Ok [mkCall (VFun 0)
             (WithValidationError
                [("email", [mkError "type" VNull [];
                            mkError "required" VNull []])])].
Proof. repeat split; reflexivity. Qed.

Lemma boolean_check_present_witness :
  validate_attr builtin_match_type builtin_match_rule never_equal active_schema
                [("active", VStr "maybe")] "active" []
  = if (ToString (VStr "maybe") =? "true") || (ToString (VStr "maybe") =? "false")
    then Ok []
    else subject <- anchor (VStr "maybe") ;;
         match to builtin_match_type builtin_match_rule subject
                  [("type", VStr "boolean"); ("required", VBool true)] with
         | ReturnsFalse => Ok []
         | ReturnsErrors err => Ok (set [] "active" err)
         end.
Proof.
  apply (boolean_check_present
           builtin_match_type builtin_match_rule never_equal active_schema
           [("active", VStr "maybe")] "active"
           [("type", VStr "boolean"); ("required", VBool true)]
           (VStr "maybe") []);
    try reflexivity; discriminate.
Defined.

Lemma boolean_check_null_throws_witness :
  validate_attr builtin_match_type builtin_match_rule never_equal active_schema
                [("active", VNull)] "active" []
  = Throw (TypeError "value.toString").
Proof.
  apply (boolean_check_null_throws
           builtin_match_type builtin_match_rule never_equal active_schema
           [("active", VNull)] "active"
           [("type", VStr "boolean"); ("required", VBool true)] []);
    try reflexivity.
  right. reflexivity.
Defined.


(* ================================================================== *)
(** ** Further properties of the facade *)

Section HurlFacts.
Variable foreign_has : value -> string -> result bool.

Lemma has_own_builtin data attr :
  (forall props, data = VObj props -> lookup props "hasOwnProperty" = None) ->
  has_own_property foreign_has data attr = Ok true.
Proof.
  intros H. destruct data; try reflexivity.
  simpl. rewrite (H props eq_refl). reflexivity.
Qed.

Lemma hurl_check_ok data ruleset attrs :
  (forall props, data = VObj props -> lookup props "hasOwnProperty" = None) ->
  (forall k, In k attrs -> truthy (obj_get ruleset k) = true) ->
  hurl_check foreign_has data ruleset attrs = Ok tt.
Proof.
  intros Hown. induction attrs as [|attr rest IH]; simpl; intros H;
    [reflexivity|].
  rewrite (has_own_builtin data attr Hown). simpl.
  rewrite (H attr) by (left; reflexivity). simpl.
  apply IH. intros k Hk. apply H. right. exact Hk.
Qed.

Lemma hurl_check_bad data ruleset before bad after :
  (forall props, data = VObj props -> lookup props "hasOwnProperty" = None) ->
  (forall k, In k before -> truthy (obj_get ruleset k) = true) ->
  truthy (obj_get ruleset bad) = false ->
  hurl_check foreign_has data ruleset (before ++ bad :: after)
  = Throw (not_in_ruleset bad).
Proof.
  intros Hown Hb Hbad. induction before as [|attr rest IH]; simpl.
  - rewrite (has_own_builtin data bad Hown). simpl.
    rewrite Hbad. reflexivity.
  - rewrite (has_own_builtin data attr Hown). simpl.
    rewrite (Hb attr) by (left; reflexivity). simpl.
    apply IH. intros k Hk. apply Hb. right. exact Hk.
Qed.
End HurlFacts.

(** For data that has no [hasOwnProperty] of its own, [hurl] throws a
    validation error that names the first attribute of the data for which
    reading the rule set gives a falsy value: an entry that is falsy, or no
    entry under a name that objects do not inherit.  The Matcher is not
    consulted. *)
Theorem hurl_throws_for_first_unknown_attribute :
  forall (match_all : value -> obj -> Anchor_instance -> result value)
         (foreign_has : value -> string -> result bool)
         (self : Anchor_instance) (ruleset : obj)
         (before : list string) (bad : string) (after : list string),
    (forall props, data self = VObj props ->
                   lookup props "hasOwnProperty" = None) ->
    for_in (data self) = (before ++ bad :: after)%list ->
    (forall k, In k before -> truthy (obj_get ruleset k) = true) ->
    truthy (obj_get ruleset bad) = false ->
    hurl match_all foreign_has self ruleset
    = Throw (Error ("Validation error: Attribute " ++ dquote ++ bad ++ dquote
                    ++ " is not in the ruleset.")).
Proof.
  intros match_all foreign_has self ruleset before bad after Hown Hk Hb Hbad.
  unfold hurl.
  rewrite Hk, (hurl_check_bad foreign_has _ ruleset before bad after Hown Hb Hbad).
  reflexivity.
Qed.

Lemma hurl_throws_for_first_unknown_attribute_witness :
  hurl accept_all always_own (mkAnchor user_data)
       [("name", VStr "string"); ("age", VBool false)]
  = Throw (Error ("Validation error: Attribute " ++ dquote ++ "age" ++ dquote
                  ++ " is not in the ruleset.")).
Proof.
  apply (hurl_throws_for_first_unknown_attribute
           accept_all always_own (mkAnchor user_data)
           [("name", VStr "string"); ("age", VBool false)] ["name"] "age" []).
  - intros props H. injection H as <-. reflexivity.
  - reflexivity.
  - intros k [<-|[]]. reflexivity.
  - reflexivity.
Defined.

(** For data that has no [hasOwnProperty] of its own, when reading the rule
    set gives a truthy value for every attribute of the data, [hurl] hands
    the data to the Matcher: it throws what the Matcher throws and nothing
    else.  An attribute with the name of a method that every object inherits
    passes without an entry; data that is a number, a boolean, [null] or
    [undefined] has no attributes and always gets to the Matcher. *)
Theorem hurl_reaches_matcher :
  forall (match_all : value -> obj -> Anchor_instance -> result value)
         (foreign_has : value -> string -> result bool)
         (self : Anchor_instance) (ruleset : obj),
    (forall props, data self = VObj props ->
                   lookup props "hasOwnProperty" = None) ->
    (forall k, In k (for_in (data self)) -> truthy (obj_get ruleset k) = true) ->
    hurl match_all foreign_has self ruleset
    = match match_all (data self) ruleset self with
      | Ok _ => Ok tt
      | Throw e => Throw e
      end.
Proof.
  intros match_all foreign_has self ruleset Hown Hall.
  unfold hurl. rewrite (hurl_check_ok foreign_has _ _ _ Hown Hall). simpl.
  destruct (match_all _ _ _); reflexivity.
Qed.

Lemma hurl_reaches_matcher_witness :
  hurl accept_all always_own (mkAnchor user_data) user_ruleset = Ok tt
  /\ hurl accept_all always_own (mkAnchor (VNum 3)) [] = Ok tt
  /\ hurl accept_all always_own (mkAnchor (VObj [("constructor", VNum 1)])) []
     = Ok tt.
Proof.
  split; [|split].
  - apply (hurl_reaches_matcher accept_all always_own (mkAnchor user_data)
                                user_ruleset).
    + intros props H. injection H as <-. reflexivity.
    + intros k [<-|[<-|[]]]; reflexivity.
  - apply (hurl_reaches_matcher accept_all always_own (mkAnchor (VNum 3)) []).
    + intros props H. discriminate H.
    + intros k [].
  - apply (hurl_reaches_matcher accept_all always_own
             (mkAnchor (VObj [("constructor", VNum 1)])) []).
    + intros props H. injection H as <-. reflexivity.
    + intros k [<-|[]]. reflexivity.
Defined.

(** Data with a property [hasOwnProperty] of its own that is not a function:
    [hurl] throws a [TypeError] at the first attribute, before it reads the
    rule set. *)
Lemma hurl_uncallable_hasOwnProperty_throws :
  forall (match_all : value -> obj -> Anchor_instance -> result value)
         (foreign_has : value -> string -> result bool)
         (props ruleset : obj) (f : value),
    lookup props "hasOwnProperty" = Some f -> isFunction f = false ->
    hurl match_all foreign_has (mkAnchor (VObj props)) ruleset
    = Throw (TypeError "data.hasOwnProperty").
Proof.
  intros match_all foreign_has props ruleset f Hl Hf.
  unfold hurl. cbn [data for_in].
  destruct props as [|[k v] rest]; [discriminate Hl|].
  cbn [keys map fst hurl_check has_own_property].
  rewrite Hl, Hf. reflexivity.
Qed.

Lemma hurl_uncallable_hasOwnProperty_throws_witness :
  hurl accept_all always_own (mkAnchor (VObj [("hasOwnProperty", VNum 1)]))
       [("hasOwnProperty", VNum 1)]
  = Throw (TypeError "data.hasOwnProperty").
Proof.
  apply (hurl_uncallable_hasOwnProperty_throws
           accept_all always_own [("hasOwnProperty", VNum 1)]
           [("hasOwnProperty", VNum 1)] (VNum 1)); reflexivity.
Defined.

Section CheckMore.
Variable match_type : value -> value -> list ValidationError.
Variable match_rule : value -> string -> value -> list ValidationError.

Lemma flat_map_nil_iff {A B} (f : A -> list B) l :
  flat_map f l = [] <-> forall x, In x l -> f x = [].
Proof.
  induction l as [|x rest IH]; simpl.
  - split; [intros _ y [] | reflexivity].
  - split.
    + intros H. apply app_eq_nil in H as [Hx Hr].
      intros y [<-|Hy]; [exact Hx | apply IH; assumption].
    + intros H. rewrite (H x) by (left; reflexivity). simpl.
      apply IH. intros y Hy. apply H. right. exact Hy.
Qed.

Lemma flat_map_ext_in {A B} (f g : A -> list B) l :
  (forall x, In x l -> f x = g x) -> flat_map f l = flat_map g l.
Proof.
  induction l as [|x rest IH]; simpl; intros H; [reflexivity|].
  rewrite (H x) by (left; reflexivity). f_equal.
  apply IH. intros y Hy. apply H. right. exact Hy.
Qed.

Lemma lookup_app_left {A} (o1 o2 : list (string * A)) k :
  In k (keys o1) -> lookup (o1 ++ o2) k = lookup o1 k.
Proof.
  induction o1 as [|[k0 v0] rest IH]; simpl; [intros []|].
  destruct (String.eqb_spec k0 k) as [->|Hne]; [reflexivity|].
  intros [H|H]; [contradiction | apply IH, H].
Qed.

Lemma lookup_app_right {A} (o1 o2 : list (string * A)) k :
  ~ In k (keys o1) -> lookup (o1 ++ o2) k = lookup o2 k.
Proof.
  induction o1 as [|[k0 v0] rest IH]; simpl; [reflexivity|].
  intros Hn. destruct (String.eqb_spec k0 k) as [->|Hne]; [tauto|].
  apply IH. tauto.
Qed.

Lemma key_errors_ext self (r1 r2 : obj) rule :
  lookup r1 rule = lookup r2 rule ->
  key_errors match_type match_rule self r1 rule
  = key_errors match_type match_rule self r2 rule.
Proof.
  intros H. unfold key_errors, to_step, obj_get.
  destruct (String.eqb_spec rule "type") as [->|_]; rewrite H; reflexivity.
Qed.
End CheckMore.

(** [to] answers [false] exactly when no key of the rule set produces a
    violation, as for the empty rule set; an answer that is a list is never
    the empty list. *)
Theorem to_false_iff_no_violation :
  forall (match_type : value -> value -> list ValidationError)
         (match_rule : value -> string -> value -> list ValidationError)
         (self : Anchor_instance) (ruleset : obj),
    (to match_type match_rule self ruleset = ReturnsFalse <->
     forall rule, In rule (keys ruleset) ->
                  key_errors match_type match_rule self ruleset rule = [])
    /\ to match_type match_rule self ruleset <> ReturnsErrors []
    /\ to match_type match_rule self [] = ReturnsFalse.
Proof.
  intros match_type match_rule self ruleset.
  unfold to. rewrite to_errors_flat_map. rewrite <- flat_map_nil_iff.
  destruct (flat_map _ _) as [|e es]; simpl;
    (split; [split; intros H; (reflexivity || discriminate H)
            | split; [discriminate | reflexivity]]).
Qed.

(** The violations of a rule set made of two parts with no key in common are
    the violations of the first part followed by those of the second. *)
Theorem to_errors_of_parts :
  forall (match_type : value -> value -> list ValidationError)
         (match_rule : value -> string -> value -> list ValidationError)
         (self : Anchor_instance) (first second : obj),
    (forall k, In k (keys first) -> ~ In k (keys second)) ->
    to_errors match_type match_rule self (first ++ second)%list
    = (to_errors match_type match_rule self first
       ++ to_errors match_type match_rule self second)%list.
Proof.
  intros match_type match_rule self first second Hdis.
  rewrite !to_errors_flat_map. unfold keys at 1.
  rewrite map_app, flat_map_app. f_equal.
  - apply flat_map_ext_in. intros k Hk. apply key_errors_ext.
    apply lookup_app_left, Hk.
  - apply flat_map_ext_in. intros k Hk. apply key_errors_ext.
    apply lookup_app_right. intros H1. exact (Hdis k H1 Hk).
Qed.

Lemma to_errors_of_parts_witness :
  to_errors builtin_match_type builtin_match_rule (mkAnchor (VStr "x"))
            ([("min", VNum 0)] ++ [("type", VStr "integer")])%list
  = (to_errors builtin_match_type builtin_match_rule (mkAnchor (VStr "x"))
               [("min", VNum 0)]
     ++ to_errors builtin_match_type builtin_match_rule (mkAnchor (VStr "x"))
                  [("type", VStr "integer")])%list.
Proof.
  apply (to_errors_of_parts builtin_match_type builtin_match_rule
           (mkAnchor (VStr "x")) [("min", VNum 0)] [("type", VStr "integer")]).
  intros k [<-|[]] [H|[]]. discriminate H.
Defined.

(* ================================================================== *)
(** ** Further properties of [initialize] *)

Section SetFacts.
Context {A : Type}.
Implicit Types (o : list (string * A)) (k : string) (v : A).

Lemma set_fixed o k v : lookup o k = Some v -> set o k v = o.
Proof.
  induction o as [|[k0 v0] rest IH]; simpl; [discriminate|].
  destruct (k0 =? k) eqn:E; intros H.
  - injection H as ->. reflexivity.
  - rewrite IH by exact H. reflexivity.
Qed.

Lemma set_fresh o k v : lookup o k = None -> set o k v = (o ++ [(k, v)])%list.
Proof.
  induction o as [|[k0 v0] rest IH]; simpl; [reflexivity|].
  destruct (k0 =? k); [discriminate|].
  intros H. rewrite IH by exact H. reflexivity.
Qed.

Lemma fold_set_fixed (f : string -> A) ks o :
  (forall k, In k ks -> lookup o k = Some (f k)) ->
  fold_left (fun d k => set d k (f k)) ks o = o.
Proof.
  induction ks as [|k rest IH]; simpl; intros H; [reflexivity|].
  rewrite set_fixed by (apply H; left; reflexivity).
  apply IH. intros k' Hk'. apply H. right. exact Hk'.
Qed.

Lemma fold_left_ext_in {B} (f g : B -> string -> B) ks acc :
  (forall k acc', In k ks -> f acc' k = g acc' k) ->
  fold_left f ks acc = fold_left g ks acc.
Proof.
  revert acc. induction ks as [|k rest IH]; simpl; intros acc H; [reflexivity|].
  rewrite (H k acc) by (left; reflexivity).
  apply IH. intros k' acc' Hk'. apply H. right. exact Hk'.
Qed.
End SetFacts.

Lemma extend_twice (destination source : obj) :
  extend (extend destination source) source = extend destination source.
Proof.
  unfold extend at 1.
  apply (fold_set_fixed (fun k => obj_get source k)).
  intros k Hk. rewrite lookup_extend.
  apply mem_In in Hk. rewrite Hk. reflexivity.
Qed.

Lemma define_again (rules rules' : obj) (types : value) :
  define rules tt types VUndefined = Ok (rules', tt) ->
  define rules' tt types VUndefined = Ok (rules', tt).
Proof.
  unfold define. destruct (isObject types); simpl; [|discriminate].
  destruct (check_definitions _ _) as [[]|e]; simpl; [|discriminate].
  intros H. injection H as <-. rewrite extend_twice. reflexivity.
Qed.

(** [initialize] is idempotent: a second call with the same attribute
    definitions and custom types changes neither the registry nor the
    validations. *)
Theorem initialize_twice :
  forall (rules : obj) (validations : validations_map)
         (attrs : list (string * obj)) (types : value)
         (rules' : obj) (validations' : validations_map),
    initialize rules validations attrs types = Ok (rules', validations') ->
    initialize rules' validations' attrs types = Ok (rules', validations').
Proof.
  intros rules validations attrs types rules' validations' H.
  unfold initialize in *.
  destruct (define rules tt _ VUndefined) as [[r []]|e] eqn:Ed; simpl in H;
    [|discriminate].
  injection H as <- <-.
  rewrite (define_again _ _ _ Ed). simpl. f_equal. f_equal.
  apply (fold_set_fixed
           (fun attr => build_validation
                          (match lookup attrs attr with
                           | Some d => d
                           | None => []
                           end))).
  intros k Hk. rewrite initialize_attrs_lookup.
  apply mem_In in Hk. rewrite Hk. reflexivity.
Qed.

Lemma initialize_twice_witness :
  initialize [] [] name_age_attrs VUndefined
  = Ok ([], name_age_schema)
  /\ initialize [] name_age_schema name_age_attrs VUndefined
     = Ok ([], name_age_schema).
Proof.
  split; [reflexivity|].
  apply (initialize_twice [] [] name_age_attrs VUndefined [] name_age_schema).
  reflexivity.
Defined.

Lemma initialize_fresh_fold (attrs done todo : list (string * obj)) :
  attrs = (done ++ todo)%list ->
  NoDup (keys attrs) ->
  fold_left (initialize_attr attrs) (keys todo)
            (map (fun ad => (fst ad, build_validation (snd ad))) done)
  = map (fun ad => (fst ad, build_validation (snd ad))) attrs.
Proof.
  revert done. induction todo as [|[a d] rest IH]; intros done Ha Hnd; simpl.
  - subst attrs. rewrite app_nil_r. reflexivity.
  - assert (Hout : ~ In a (keys done)).
    { subst attrs. unfold keys in Hnd. rewrite map_app in Hnd. simpl in Hnd.
      apply NoDup_remove_2 in Hnd. intros Hin. apply Hnd.
      apply in_or_app. left. exact Hin. }
    assert (Hl : lookup attrs a = Some d).
    { subst attrs. rewrite lookup_app_right by exact Hout.
      simpl. rewrite String.eqb_refl. reflexivity. }
    unfold initialize_attr at 2. rewrite Hl.
    rewrite set_fresh.
    + replace (map (fun ad => (fst ad, build_validation (snd ad))) done
               ++ [(a, build_validation d)])%list
        with (map (fun ad => (fst ad, build_validation (snd ad)))
                  (done ++ [(a, d)])%list)
        by (rewrite map_app; reflexivity).
      apply IH; [|exact Hnd].
      rewrite <- app_assoc. exact Ha.
    + apply lookup_none. unfold keys. rewrite map_map. simpl. exact Hout.
Qed.

(** On a new Validator and without custom types, [initialize] does not
    throw, leaves the registry as it is, and declares the attributes of the
    definition map in their order, each with the rule set built from its
    definition. *)
Theorem initialize_fresh :
  forall (rules : obj) (attrs : list (string * obj)) (types : value),
    NoDup (keys attrs) ->
    truthy types = false ->
    initialize rules [] attrs types
    = Ok (rules, map (fun ad => (fst ad, build_validation (snd ad))) attrs).
Proof.
  intros rules attrs types Hnd Ht.
  unfold initialize. rewrite Ht. simpl. f_equal. f_equal.
  apply (initialize_fresh_fold attrs [] attrs); [reflexivity | exact Hnd].
Qed.

Lemma initialize_fresh_witness :
  initialize aliased_rules [] name_age_attrs VNull
  = Ok (aliased_rules,
        map (fun ad => (fst ad, build_validation (snd ad))) name_age_attrs).
Proof.
  apply (initialize_fresh aliased_rules name_age_attrs VNull).
  - repeat constructor; simpl; intuition discriminate.
  - reflexivity.
Defined.

(** [initialize] with a dictionary of custom types in which a value is not
    callable throws the definition error that names the first such key, and
    with custom types that are neither falsy nor an object (a string, a
    number that JavaScript holds exactly, [true]) it throws the error of an
    invalid definition; in both cases before it builds a validation. *)
Theorem initialize_rejects_bad_types :
  forall (rules : obj) (validations : validations_map)
         (attrs : list (string * obj)),
    (forall dict before bad after,
        keys dict = (before ++ bad :: after)%list ->
        (forall k, In k before -> isFunction (obj_get dict k) = true) ->
        isFunction (obj_get dict bad) = false ->
        initialize rules validations attrs (VObj dict)
        = Throw (Error ("Definition error: " ++ dquote ++ bad ++ dquote
                        ++ " does not have a definition")))
    /\ (forall types,
           truthy types = true -> isObject types = false ->
           (forall z, types = VNum z -> (Z.abs z <= 9007199254740991)%Z) ->
           initialize rules validations attrs types
           = Throw (Error ("Definition error: " ++ dquote ++ ToString types
                           ++ dquote ++ " is not a valid definition."))).
Proof.
  intros rules validations attrs. split.
  - intros dict before bad after Hk Hb Hbad.
    unfold initialize, define. simpl. rewrite Hk.
    rewrite (check_definitions_bad dict before bad after Hb Hbad). reflexivity.
  - intros types Ht Ho _. unfold initialize, define. rewrite Ht, Ho.
    reflexivity.
Qed.

Lemma initialize_rejects_bad_types_witness :
  initialize [] [] name_age_attrs (VObj [("even", VFun 1); ("odd", VStr "x")])
  = Throw (Error ("Definition error: " ++ dquote ++ "odd" ++ dquote
                  ++ " does not have a definition"))
  /\ initialize [] [] name_age_attrs (VStr "even")
     = Throw (Error ("Definition error: " ++ dquote ++ "even"
                     ++ dquote ++ " is not a valid definition.")).
Proof.
  split.
  - apply (proj1 (initialize_rejects_bad_types [] [] name_age_attrs)
                 [("even", VFun 1); ("odd", VStr "x")] ["even"] "odd" []).
    + reflexivity.
    + intros k [<-|[]]. reflexivity.
    + reflexivity.
  - apply (proj2 (initialize_rejects_bad_types [] [] name_age_attrs)
                 (VStr "even")); try reflexivity.
    intros z H. discriminate H.
Defined.

Lemma lookup_strip (def : obj) p :
  schema_only p = false -> lookup (strip_schema_only def) p = lookup def p.
Proof.
  intros Hp. unfold strip_schema_only.
  induction def as [|[k v] rest IH]; simpl; [reflexivity|].
  destruct (String.eqb_spec k p) as [->|Hne].
  - rewrite Hp. simpl. rewrite String.eqb_refl. reflexivity.
  - destruct (schema_only k); simpl; [exact IH|].
    destruct (String.eqb_spec k p); [contradiction | exact IH].
Qed.

Lemma keys_strip (def : obj) :
  keys (strip_schema_only def) = filter (fun k => negb (schema_only k)) (keys def).
Proof.
  unfold strip_schema_only, keys.
  induction def as [|[k v] rest IH]; simpl; [reflexivity|].
  destruct (schema_only k); simpl; rewrite IH; reflexivity.
Qed.

Lemma initialize_prop_skip (def : obj) ks acc :
  fold_left (initialize_prop def) (filter (fun k => negb (schema_only k)) ks) acc
  = fold_left (initialize_prop def) ks acc.
Proof.
  revert acc. induction ks as [|k rest IH]; intros acc; simpl; [reflexivity|].
  destruct (schema_only k) eqn:Es; simpl.
  - rewrite IH. unfold initialize_prop at 3. rewrite Es. reflexivity.
  - apply IH.
Qed.

Lemma build_validation_strip (def : obj) :
  build_validation (strip_schema_only def) = build_validation def.
Proof.
  unfold build_validation. rewrite keys_strip.
  rewrite <- (initialize_prop_skip def (keys def) []).
  apply fold_left_ext_in. intros k acc Hk.
  apply filter_In in Hk as [_ Hs]. apply negb_true_iff in Hs.
  unfold initialize_prop, obj_get. rewrite Hs.
  rewrite (lookup_strip def k Hs).
  assert (Hin : schema_only "in" = false) by reflexivity.
  destruct (k =? "enum"); reflexivity.
Qed.

Lemma lookup_strip_attrs (attrs : list (string * obj)) a :
  lookup (strip_attrs attrs) a = option_map strip_schema_only (lookup attrs a).
Proof.
  unfold strip_attrs.
  induction attrs as [|[k d] rest IH]; simpl; [reflexivity|].
  destruct (k =? a); [reflexivity | exact IH].
Qed.

(** The schema-only properties of the attribute definitions have no part in
    what [initialize] builds: the result is the same with and without
    them. *)
Theorem initialize_ignores_schema_only :
  forall (rules : obj) (validations : validations_map)
         (attrs : list (string * obj)) (types : value),
    initialize rules validations (strip_attrs attrs) types
    = initialize rules validations attrs types.
Proof.
  intros rules validations attrs types. unfold initialize.
  destruct (define rules tt _ VUndefined) as [r|e]; simpl; [|reflexivity].
  f_equal. f_equal.
  assert (Hk : keys (strip_attrs attrs) = keys attrs).
  { unfold strip_attrs, keys. rewrite map_map. reflexivity. }
  rewrite Hk. apply fold_left_ext_in. intros a acc _.
  unfold initialize_attr. rewrite lookup_strip_attrs.
  destruct (lookup attrs a) as [d|]; simpl; [|reflexivity].
  rewrite build_validation_strip. reflexivity.
Qed.


(* ================================================================== *)
(** ** Further properties of [validate] *)

(** [validate] returns only by having called the callback exactly once, and
    what it then calls is a function; when the callback that it would call is
    not a function, it throws. *)
Theorem validate_returns_only_through_callback :
  forall (match_type : value -> value -> list ValidationError)
         (match_rule : value -> string -> value -> list ValidationError)
         (foreign_equals : value -> string -> result bool)
         (validations : validations_map) (values : obj)
         (presentOnly cb : value),
    (forall calls,
        validate match_type match_rule foreign_equals validations values presentOnly cb
        = Ok calls ->
        isFunction (callback presentOnly cb) = true
        /\ exists errors,
             calls = [mkCall (callback presentOnly cb)
                             (match errors with
                              | [] => NoArgument
                              | _ :: _ => WithValidationError errors
                              end)])
    /\ (isFunction (callback presentOnly cb) = false ->
        returns (validate match_type match_rule foreign_equals validations values
                          presentOnly cb) = false).
Proof.
  intros match_type match_rule foreign_equals validations values presentOnly cb. split.
  - intros calls H.
    assert (Hr : returns (validate match_type match_rule foreign_equals validations values
                                   presentOnly cb) = true)
      by (rewrite H; reflexivity).
    rewrite validate_returns_eq in Hr. apply andb_prop in Hr as [_ Hf].
    split; [exact Hf|].
    destruct (validate_inv _ _ _ _ _ _ _ _ H) as (errors & _ & ->).
    exists errors. reflexivity.
  - intros Hf. rewrite validate_returns_eq, Hf. apply andb_false_r.
Qed.

(** [validate] never looks at a value of the bag that belongs to no declared
    attribute: two bags that agree on the declared attributes give the same
    outcome. *)
Theorem validate_ignores_undeclared_values :
  forall (match_type : value -> value -> list ValidationError)
         (match_rule : value -> string -> value -> list ValidationError)
         (foreign_equals : value -> string -> result bool)
         (validations : validations_map) (values values' : obj)
         (presentOnly cb : value),
    (forall a, In a (keys validations) -> lookup values a = lookup values' a) ->
    validate match_type match_rule foreign_equals validations values presentOnly cb
    = validate match_type match_rule foreign_equals validations values' presentOnly cb.
Proof.
  intros match_type match_rule foreign_equals validations values values' presentOnly cb H.
  unfold validate.
  rewrite (selected_values_ext validations values values' presentOnly H).
  rewrite (each_ext_in
             (validate_attr match_type match_rule foreign_equals validations values)
             (validate_attr match_type match_rule foreign_equals validations values')).
  - reflexivity.
  - intros a s Ha. apply validate_attr_values_ext, H.
    eapply selected_declared, Ha.
Qed.

Lemma validate_ignores_undeclared_values_witness :
  validate builtin_match_type builtin_match_rule never_equal name_age_schema
           ann_minus_one VUndefined (VFun 0)
  = validate builtin_match_type builtin_match_rule never_equal name_age_schema
             (("admin", VFun 9) :: ann_minus_one) VUndefined (VFun 0).
Proof.
  apply (validate_ignores_undeclared_values
           builtin_match_type builtin_match_rule never_equal name_age_schema
           ann_minus_one (("admin", VFun 9) :: ann_minus_one)
           VUndefined (VFun 0)).
  intros a [<-|[<-|[]]]; reflexivity.
Defined.

(** An attribute of type [text] is never checked: whatever its value, a
    function or the absent value of a required attribute included, its check
    records nothing and does not throw, and no map of errors has an entry
    for it. *)
Theorem validate_skips_text :
  forall (match_type : value -> value -> list ValidationError)
         (match_rule : value -> string -> value -> list ValidationError)
         (foreign_equals : value -> string -> result bool)
         (validations : validations_map) (values : obj)
         (a : string) (rs : obj),
    lookup validations a = Some rs ->
    obj_get rs "type" = VStr "text" ->
    (forall errors,
        validate_attr match_type match_rule foreign_equals validations values a errors
        = Ok errors)
    /\ (forall presentOnly cb calls c errors,
           validate match_type match_rule foreign_equals validations values presentOnly cb
           = Ok calls ->
           In c calls -> argument c = WithValidationError errors ->
           lookup errors a = None).
Proof.
  intros match_type match_rule foreign_equals validations values a rs Hrs Ht.
  assert (Hstep : forall errors,
             validate_attr match_type match_rule foreign_equals validations values a errors
             = Ok errors)
    by (intros errors; eapply validate_attr_text; eassumption).
  split; [exact Hstep|].
  intros presentOnly cb calls c errors Hv Hc Ha.
  eapply validate_no_entry; try eassumption.
  right. apply Hstep.
Qed.

Lemma validate_skips_text_witness :
  (forall errors,
      validate_attr builtin_match_type builtin_match_rule never_equal notes_schema
                    [("notes", VFun 3)] "notes" errors
      = Ok errors)
  /\ (forall presentOnly cb calls c errors,
         validate builtin_match_type builtin_match_rule never_equal notes_schema
                  [("notes", VFun 3)] presentOnly cb
         = Ok calls ->
         In c calls -> argument c = WithValidationError errors ->
         lookup errors "notes" = None).
Proof.
  apply (validate_skips_text
           builtin_match_type builtin_match_rule never_equal notes_schema
           [("notes", VFun 3)] "notes"
           [("type", VStr "text"); ("required", VBool true)]);
    reflexivity.
Defined.

(** When there is nothing to check, [validate] calls the callback with no
    argument: on a Validator that declares no attribute, and in present-only
    mode on a bag that has none of the declared attributes, the empty bag
    among them. *)
Theorem validate_nothing_to_check :
  forall (match_type : value -> value -> list ValidationError)
         (match_rule : value -> string -> value -> list ValidationError)
         (foreign_equals : value -> string -> result bool)
         (validations : validations_map) (values : obj)
         (presentOnly cb : value),
    isFunction (callback presentOnly cb) = true ->
    validations = []
    \/ (isFunction presentOnly = false /\ truthy presentOnly = true
        /\ forall a, In a (keys validations) -> ~ In a (keys values)) ->
    validate match_type match_rule foreign_equals validations values presentOnly cb
    = Ok [mkCall (callback presentOnly cb) NoArgument].
Proof.
  intros match_type match_rule foreign_equals validations values presentOnly cb Hcb Hcase.
  assert (Hsel : selected validations values presentOnly = []).
  { destruct Hcase as [-> | (Hf & Ht & Hnone)].
    - unfold selected. destruct (isFunction presentOnly); [reflexivity|].
      destruct (truthy presentOnly); reflexivity.
    - unfold selected, intersection. rewrite Hf, Ht.
      apply filter_none. intros a Ha. apply (proj1 (uniq_In _ _)) in Ha.
      apply mem_false, Hnone, Ha. }
  unfold validate. rewrite Hsel. simpl. unfold invoke. rewrite Hcb. reflexivity.
Qed.

Lemma validate_nothing_to_check_witness :
  validate builtin_match_type builtin_match_rule never_equal name_email_schema []
           (VBool true) (VFun 0)
  = Ok [mkCall (VFun 0) NoArgument].
Proof.
  apply (validate_nothing_to_check
           builtin_match_type builtin_match_rule never_equal name_email_schema []
           (VBool true) (VFun 0)).
  - reflexivity.
  - right. repeat split. intros a _ [].
Defined.

(** The present-only mode changes nothing when the bag has every declared
    attribute. *)
Theorem validate_present_only_all_present :
  forall (match_type : value -> value -> list ValidationError)
         (match_rule : value -> string -> value -> list ValidationError)
         (foreign_equals : value -> string -> result bool)
         (validations : validations_map) (values : obj)
         (presentOnly cb : value),
    NoDup (keys validations) ->
    (forall a, In a (keys validations) -> In a (keys values)) ->
    isFunction presentOnly = false ->
    validate match_type match_rule foreign_equals validations values presentOnly cb
    = validate match_type match_rule foreign_equals validations values (VBool false) cb.
Proof.
  intros match_type match_rule foreign_equals validations values presentOnly cb Hnd Hall Hf.
  assert (Hsel : selected validations values presentOnly = keys validations).
  { unfold selected, intersection. rewrite Hf.
    destruct (truthy presentOnly); [|reflexivity].
    rewrite (uniq_NoDup _ Hnd). apply filter_all.
    intros a Ha. apply mem_In, Hall, Ha. }
  unfold validate, callback. rewrite Hsel, Hf. reflexivity.
Qed.

Lemma validate_present_only_all_present_witness :
  validate builtin_match_type builtin_match_rule never_equal name_age_schema
           ann_minus_one (VBool true) (VFun 0)
  = validate builtin_match_type builtin_match_rule never_equal name_age_schema
             ann_minus_one (VBool false) (VFun 0).
Proof.
  apply (validate_present_only_all_present
           builtin_match_type builtin_match_rule never_equal name_age_schema
           ann_minus_one (VBool true) (VFun 0)).
  - repeat constructor; simpl; intuition discriminate.
  - intros a [<-|[<-|[]]]; simpl; tauto.
  - reflexivity.
Defined.

(** The check of one attribute leaves the entries of all other attributes
    in the map of errors as they are; for its own attribute it either leaves
    the entry as it is or writes a list of violations that is not empty. *)
Theorem validate_attr_touches_own_entry_only :
  forall (match_type : value -> value -> list ValidationError)
         (match_rule : value -> string -> value -> list ValidationError)
         (foreign_equals : value -> string -> result bool)
         (validations : validations_map) (values : obj)
         (a : string) (errors errors' : errors_map),
    validate_attr match_type match_rule foreign_equals validations values a errors
    = Ok errors' ->
    (forall b, b <> a -> lookup errors' b = lookup errors b)
    /\ (lookup errors' a = lookup errors a
        \/ exists e es, lookup errors' a = Some (e :: es)).
Proof.
  intros match_type match_rule foreign_equals validations values a errors errors' H.
  rewrite validate_attr_frame in H.
  destruct (validate_attr match_type match_rule foreign_equals validations values a [])
    as [alone|e] eqn:Ea; simpl in H; [|discriminate].
  injection H as <-.
  destruct (validate_attr_alone _ _ _ _ _ _ _ Ea) as [->|(e & es & ->)]; simpl.
  - split; [reflexivity | left; reflexivity].
  - rewrite String.eqb_refl. split.
    + intros b Hb. apply lookup_set_other. congruence.
    + right. exists e, es. apply lookup_set_same.
Qed.

Lemma validate_attr_touches_own_entry_only_witness :
  (forall b, b <> "age" ->
             lookup [("name", [mkError "required" VNull []]);
                     ("age", [mkError "min" (VNum (-1)) []])] b
             = lookup [("name", [mkError "required" VNull []])] b)
  /\ (lookup [("name", [mkError "required" VNull []]);
              ("age", [mkError "min" (VNum (-1)) []])] "age"
      = lookup [("name", [mkError "required" VNull []])] "age"
      \/ exists e es,
           lookup [("name", [mkError "required" VNull []]);
                   ("age", [mkError "min" (VNum (-1)) []])] "age"
           = Some (e :: es)).
Proof.
  apply (validate_attr_touches_own_entry_only
           builtin_match_type builtin_match_rule never_equal name_age_schema
           ann_minus_one "age" [("name", [mkError "required" VNull []])]).
  reflexivity.
Defined.

(** The outcome of [validate] does not depend on the order in which the
    attributes are declared: two Validators that give every attribute the
    same rule set throw on the same bags and, where they return, call the
    same callback with maps of errors that agree on every attribute. *)
Theorem validate_order_independent :
  forall (match_type : value -> value -> list ValidationError)
         (match_rule : value -> string -> value -> list ValidationError)
         (foreign_equals : value -> string -> result bool)
         (validations validations' : validations_map) (values : obj)
         (presentOnly cb : value),
    (forall a, lookup validations a = lookup validations' a) ->
    returns (validate match_type match_rule foreign_equals validations values presentOnly cb)
    = returns (validate match_type match_rule foreign_equals validations' values presentOnly cb)
    /\ (forall calls calls',
           validate match_type match_rule foreign_equals validations values presentOnly cb
           = Ok calls ->
           validate match_type match_rule foreign_equals validations' values presentOnly cb
           = Ok calls' ->
           exists errors errors',
             calls = [mkCall (callback presentOnly cb) (outcome errors)]
             /\ calls' = [mkCall (callback presentOnly cb) (outcome errors')]
             /\ (forall a, lookup errors a = lookup errors' a)
             /\ (errors = [] <-> errors' = [])).
Proof.
  intros match_type match_rule foreign_equals validations validations' values presentOnly cb H.
  assert (Hkeys : forall a, In a (keys validations) <-> In a (keys validations')).
  { intros a. rewrite <- !mem_In, !mem_keys_lookup, (H a). tauto. }
  assert (Hsel : forall a, In a (selected validations values presentOnly)
                           <-> In a (selected validations' values presentOnly)).
  { intros a. unfold selected.
    destruct (isFunction presentOnly); [apply Hkeys|].
    destruct (truthy presentOnly); [|apply Hkeys].
    rewrite !intersection_In, (Hkeys a). tauto. }
  assert (Hattr : forall a errors,
             validate_attr match_type match_rule foreign_equals validations values a errors
             = validate_attr match_type match_rule foreign_equals validations' values a errors)
    by (intros a errors; apply validate_attr_validations_ext, H).
  split.
  - rewrite !validate_returns_eq. f_equal.
    apply eq_true_iff_eq. rewrite !each_returns_iff.
    split; intros Hall a Ha.
    + rewrite <- Hattr. apply Hall, Hsel, Ha.
    + rewrite Hattr. apply Hall, Hsel, Ha.
  - intros calls calls' Hv Hv'.
    destruct (validate_inv _ _ _ _ _ _ _ _ Hv) as (errors & He & ->).
    destruct (validate_inv _ _ _ _ _ _ _ _ Hv') as (errors' & He' & ->).
    exists errors, errors'.
    assert (Hl : forall a, lookup errors a = lookup errors' a).
    { intros a.
      destruct (in_dec string_dec a (selected validations values presentOnly))
        as [Ha|Ha].
      - destruct (proj1 (each_lookup _ _ _ _ _ _ _ _ He a) Ha)
          as (alone & Hal & ->).
        destruct (proj1 (each_lookup _ _ _ _ _ _ _ _ He' a) (proj1 (Hsel a) Ha))
          as (alone' & Hal' & ->).
        rewrite Hattr in Hal. rewrite Hal in Hal'. injection Hal' as <-.
        reflexivity.
      - rewrite (proj2 (each_lookup _ _ _ _ _ _ _ _ He a) Ha).
        assert (Ha' : ~ In a (selected validations' values presentOnly))
          by (rewrite <- Hsel; exact Ha).
        rewrite (proj2 (each_lookup _ _ _ _ _ _ _ _ He' a) Ha'). reflexivity. }
    repeat split; try assumption.
    + intros ->. apply lookup_all_none. intros a. rewrite <- Hl. reflexivity.
    + intros ->. apply lookup_all_none. intros a. rewrite Hl. reflexivity.
Qed.

Lemma validate_order_independent_witness :
  returns (validate builtin_match_type builtin_match_rule never_equal name_age_schema
                    ann_minus_one VUndefined (VFun 0))
  = returns (validate builtin_match_type builtin_match_rule never_equal age_name_schema
                      ann_minus_one VUndefined (VFun 0))
  /\ (forall calls calls',
         validate builtin_match_type builtin_match_rule never_equal name_age_schema
                  ann_minus_one VUndefined (VFun 0)
         = Ok calls ->
         validate builtin_match_type builtin_match_rule never_equal age_name_schema
                  ann_minus_one VUndefined (VFun 0)
         = Ok calls' ->
         exists errors errors',
           calls = [mkCall (callback VUndefined (VFun 0)) (outcome errors)]
           /\ calls' = [mkCall (callback VUndefined (VFun 0)) (outcome errors')]
           /\ (forall a, lookup errors a = lookup errors' a)
           /\ (errors = [] <-> errors' = [])).
Proof.
  apply (validate_order_independent
           builtin_match_type builtin_match_rule never_equal name_age_schema
           age_name_schema ann_minus_one VUndefined (VFun 0)).
  intros a. unfold name_age_schema, age_name_schema, lookup.
  destruct (String.eqb_spec "name" a) as [<-|Hn]; [reflexivity|].
  destruct (String.eqb_spec "age" a) as [<-|Ha]; reflexivity.
Defined.
